(** * python_digest: HTTP Digest authentication helpers

    A shallow embedding of [python_digest/__init__.py] and the properties of
    its nonce protocol, digest computation and header parsers.

    Text is modelled by [string]: one [ascii] per character, covering the
    code points U+0000..U+00FF.  Exceptions are values of [result]; the
    module-level [random] generator is an explicit stream of draws; the
    [hashlib] primitives and the header codec of [python_digest.utils] are
    interfaces ([Hashlib], [Codec]). *)

From Stdlib Require Import ZArith Ascii String List Bool Lia.
From stdpp Require Import base option list strings gmap.

Local Open Scope string_scope.
Local Open Scope Z_scope.

#[local] Arguments String.append !s1 s2 : simpl nomatch.

(** ** The Python builtins the module uses *)

Module Py.

(** Exceptions, by class; the argument is the message. *)
Inductive exn : Type :=
  | Exception (msg : string)
  | ValueError (msg : string)
  | KeyError (key : string)
  | TypeError (msg : string).

(** The outcome of a call: a returned value or a raised exception. *)
Inductive result (A : Type) : Type :=
  | Return (a : A)
  | Raise (e : exn).
Arguments Return {A} a.
Arguments Raise {A} e.

Definition bind {A B : Type} (m : result A) (k : A -> result B) : result B :=
  match m with
  | Return a => k a
  | Raise e => Raise e
  end.

Definition returns {A : Type} (m : result A) : bool :=
  match m with Return _ => true | Raise _ => false end.

(** Characters by code point. *)
Definition code (c : ascii) : Z := Z.of_nat (nat_of_ascii c).
Definition chr (n : Z) : ascii := ascii_of_nat (Z.to_nat n).

Definition dquote : ascii := "034"%char.
Definition backslash : ascii := "\"%char.

Definition char_in (c : ascii) (s : string) : bool :=
  existsb (Ascii.eqb c) (list_ascii_of_string s).

Fixpoint str_all (p : ascii -> bool) (s : string) : bool :=
  match s with
  | EmptyString => true
  | String c s' => p c && str_all p s'
  end.

Fixpoint str_map (f : ascii -> ascii) (s : string) : string :=
  match s with
  | EmptyString => EmptyString
  | String c s' => String (f c) (str_map f s')
  end.

(** Truth value of a [str]: only the empty string is false. *)
Definition nonempty (s : string) : bool :=
  match s with EmptyString => false | String _ _ => true end.

(** Truth value of an optional [str] argument: [None] and [''] are false. *)
Definition truthy (o : option string) : bool :=
  match o with Some s => nonempty s | None => false end.

(** [s[:n]] and [s[n:]]. *)
Fixpoint take (n : nat) (s : string) : string :=
  match n, s with
  | S n', String c s' => String c (take n' s')
  | _, _ => EmptyString
  end.

Fixpoint drop (n : nat) (s : string) : string :=
  match n, s with
  | S n', String _ s' => drop n' s'
  | _, _ => s
  end.

(** [str.lower] on U+0000..U+00FF: A-Z, and the Latin-1 capitals
    U+00C0..U+00DE except the multiplication sign U+00D7. *)
Definition lower_char (c : ascii) : ascii :=
  let n := code c in
  if ((65 <=? n) && (n <=? 90)) || ((192 <=? n) && (n <=? 222) && negb (n =? 215))
  then chr (n + 32) else c.

Definition lower (s : string) : string := str_map lower_char s.

(** [str.encode('utf-8')] on U+0000..U+00FF: one byte below U+0080, two
    bytes from there on. *)
Fixpoint encode_utf8 (s : string) : string :=
  match s with
  | EmptyString => EmptyString
  | String c s' =>
      let n := code c in
      if n <? 128 then String c (encode_utf8 s')
      else String (chr (Z.lor 192 (Z.shiftr n 6)))
             (String (chr (Z.lor 128 (Z.land n 63))) (encode_utf8 s'))
  end.

(** [s.split(sep, maxsplit)] for a one-character separator: the pieces
    between the first [maxsplit] occurrences of [sep], then the rest. *)
Fixpoint split (sep : ascii) (s : string) (maxsplit : nat) {struct s} : list string :=
  match maxsplit with
  | O => [s]
  | S m =>
      match s with
      | EmptyString => [EmptyString]
      | String c s' =>
          if Ascii.eqb c sep then EmptyString :: split sep s' m
          else match split sep s' maxsplit with
               | piece :: pieces => String c piece :: pieces
               | [] => [String c EmptyString]
               end
      end
  end.

(** ["%x" % n] for [0 <= n]: lowercase digits, most significant first. *)
Definition hex_digit (d : Z) : ascii :=
  if d <? 10 then chr (48 + d) else chr (87 + d).

Fixpoint to_hex_fuel (fuel : nat) (n : Z) : string :=
  match fuel with
  | O => EmptyString
  | S fuel' =>
      if n <? 16 then String (hex_digit n) EmptyString
      else to_hex_fuel fuel' (n / 16) +:+ String (hex_digit (n mod 16)) EmptyString
  end.

Definition to_hex (n : Z) : string := to_hex_fuel (S (Z.to_nat (Z.log2 n))) n.

Fixpoint zeros (n : nat) : string :=
  match n with
  | O => EmptyString
  | S n' => String "0" (zeros n')
  end.

(** [s.rjust(width, '0')]. *)
Definition zero_pad (width : nat) (s : string) : string :=
  zeros (width - String.length s) +:+ s.

(** ["%08x" % n]: minimum width 8, zero padding after the sign. *)
Definition format_08x (n : Z) : string :=
  if n <? 0 then String "-" (zero_pad 7 (to_hex (- n)))
  else zero_pad 8 (to_hex n).

(** The value of one hexadecimal digit, either case. *)
Definition hex_val (c : ascii) : option Z :=
  let n := code c in
  if (48 <=? n) && (n <=? 57) then Some (n - 48)
  else if (97 <=? n) && (n <=? 102) then Some (n - 87)
  else if (65 <=? n) && (n <=? 70) then Some (n - 55)
  else None.

Fixpoint hex_fold (acc : Z) (s : string) : option Z :=
  match s with
  | EmptyString => Some acc
  | String c s' =>
      match hex_val c with
      | Some d => hex_fold (16 * acc + d) s'
      | None => None
      end
  end.

(** [int(s, 16)] on digit strings.  Python also reads a sign, a [0x] prefix,
    underscores and surrounding blanks; each of those forms holds a character
    that is no hexadecimal digit, and the only call (in
    [parse_digest_response]) is guarded against such characters. *)
Definition int_16 (s : string) : result Z :=
  match s with
  | EmptyString => Raise (ValueError "invalid literal for int() with base 16")
  | _ => match hex_fold 0 s with
         | Some n => Return n
         | None => Raise (ValueError "invalid literal for int() with base 16")
         end
  end.

(** What [float(s)] reads off a text: a decimal [mantissa * 10 ^ exponent]
    with its sign, an infinity, or a NaN.  Python returns the double nearest
    to the decimal; the embedding keeps the decimal as it was read. *)
Inductive float_value : Type :=
  | Finite (negative : bool) (mantissa exponent : Z)
  | Infinite (negative : bool)
  | NotANumber.

Definition is_decimal_digit (c : ascii) : bool :=
  let n := code c in (48 <=? n) && (n <=? 57).

(** The characters [float] strips from both ends of the text: the ASCII
    blanks, and U+0085 and U+00A0, which it first turns into blanks. *)
Definition is_float_blank (c : ascii) : bool :=
  let n := code c in
  ((9 <=? n) && (n <=? 13)) || (n =? 32) || (n =? 133) || (n =? 160).

(** An underscore is allowed between two digits only; [prev] is the
    character before [s]. *)
Fixpoint underscores_between_digits (prev : ascii) (s : string) : bool :=
  match s with
  | EmptyString => negb (Ascii.eqb prev "_")
  | String c s' =>
      (if Ascii.eqb c "_" then is_decimal_digit prev
       else negb (Ascii.eqb prev "_") || is_decimal_digit c)
      && underscores_between_digits c s'
  end.

Fixpoint without_underscores (s : string) : string :=
  match s with
  | EmptyString => EmptyString
  | String c s' =>
      if Ascii.eqb c "_" then without_underscores s'
      else String c (without_underscores s')
  end.

Fixpoint lstrip_blanks (s : string) : string :=
  match s with
  | EmptyString => EmptyString
  | String c s' => if is_float_blank c then lstrip_blanks s' else s
  end.

Fixpoint rstrip_blanks (s : string) : string :=
  match s with
  | EmptyString => EmptyString
  | String c s' =>
      match rstrip_blanks s' with
      | EmptyString => if is_float_blank c then EmptyString else String c EmptyString
      | r => String c r
      end
  end.

(** The leading digits of [s] and what follows them. *)
Fixpoint span_digits (s : string) : string * string :=
  match s with
  | EmptyString => (EmptyString, EmptyString)
  | String c s' =>
      if is_decimal_digit c then
        let '(digits, rest) := span_digits s' in (String c digits, rest)
      else (EmptyString, s)
  end.

Fixpoint decimal_fold (acc : Z) (s : string) : Z :=
  match s with
  | EmptyString => acc
  | String c s' => decimal_fold (10 * acc + (code c - 48)) s'
  end.

(** An optional sign, and the text after it. *)
Definition read_sign (s : string) : bool * string :=
  match s with
  | String c s' =>
      if Ascii.eqb c "-" then (true, s')
      else if Ascii.eqb c "+" then (false, s')
      else (false, s)
  | EmptyString => (false, s)
  end.

(** What may follow the mantissa: nothing, or [e] or [E], an optional sign
    and one or more digits. *)
Definition read_exponent (s : string) : option Z :=
  match s with
  | EmptyString => Some 0
  | String c s' =>
      if Ascii.eqb c "e" || Ascii.eqb c "E" then
        let '(negative, digits) := read_sign s' in
        if nonempty digits && str_all is_decimal_digit digits
        then Some (if negative then - decimal_fold 0 digits else decimal_fold 0 digits)
        else None
      else None
  end.

(** Digits with an optional point among them, at least one digit in all,
    and an optional exponent. *)
Definition read_decimal (negative : bool) (s : string) : option float_value :=
  let '(int_part, rest) := span_digits s in
  let '(frac_part, rest) :=
    match rest with
    | String c rest' => if Ascii.eqb c "." then span_digits rest' else (EmptyString, rest)
    | EmptyString => (EmptyString, rest)
    end in
  if nonempty (int_part +:+ frac_part) then
    match read_exponent rest with
    | Some e =>
        Some (Finite negative (decimal_fold 0 (int_part +:+ frac_part))
                (e - Z.of_nat (String.length frac_part)))
    | None => None
    end
  else None.

(** [float(s)] on a text of U+0000..U+00FF, as of Python 3.6; [None] stands
    for [ValueError].  Blanks around the number are dropped, underscores
    between digits are skipped; after an optional sign come [inf],
    [infinity] or [nan] in any case of their letters, or a decimal number. *)
Definition float (s : string) : option float_value :=
  if underscores_between_digits "000" s then
    let '(negative, body) :=
      read_sign (rstrip_blanks (lstrip_blanks (without_underscores s))) in
    if String.eqb (lower body) "inf" || String.eqb (lower body) "infinity"
    then Some (Infinite negative)
    else if String.eqb (lower body) "nan" then Some NotANumber
    else read_decimal negative body
  else None.

(** The state of the [random] module: the stream of its raw draws. *)
Definition Rng : Type := nat -> nat.

Definition nth_char (i : nat) (s : string) : ascii :=
  nth i (list_ascii_of_string s) "000"%char.

(** [random.choice(seq)] for a non-empty [seq]. *)
Definition choice (seq : string) (g : Rng) : ascii * Rng :=
  (nth_char (g O mod String.length seq)%nat seq, fun i => g (S i)).

(** [''.join([random.choice(seq) for x in range(n)])]. *)
Fixpoint choices (seq : string) (n : nat) (g : Rng) : string * Rng :=
  match n with
  | O => (EmptyString, g)
  | S n' =>
      let '(c, g1) := choice seq g in
      let '(s, g2) := choices seq n' g1 in
      (String c s, g2)
  end.

End Py.
Import Py.


#[global] Instance result_ret : MRet result := @Return.
#[global] Instance result_bind : MBind result := fun A B k m => Py.bind m k.

(** ** The interfaces the module consumes *)

Definition is_lower_hex (c : ascii) : bool := char_in c "0123456789abcdef".

(** [hashlib]: each primitive maps the bytes to their [hexdigest()].
    [sha512_256] is [hashlib.new('sha512_256')], present only when the
    build's cryptographic provider has it. *)
Class Hashlib : Type := {
  md5 : string -> string;
  sha256 : string -> string;
  sha512 : string -> string;
  sha512_256 : option (string -> string)
}.

(** [python_digest.utils]: [parse_parts(parts_string, defaults)] yields the
    mapping of a parameter list or no result; [format_parts]
    renders its keyword arguments in the order given. *)
Class Codec : Type := {
  parse_parts : string -> gmap string string -> option (gmap string string);
  format_parts : list (string * string) -> string
}.

(** ** The records *)

Module DigestResponse.
Record t : Type := mk {
  username : string;
  realm : string;
  nonce : string;
  uri : string;
  response : string;
  algorithm : string;
  opaque : string;
  qop : string;
  nc : Z;
  cnonce : string
}.
End DigestResponse.

Module DigestChallenge.
Record t : Type := mk {
  realm : string;
  nonce : string;
  stale : bool;
  algorithm : string;
  opaque : string;
  qop : string
}.
End DigestChallenge.

(** The [digest_challenge] argument of [build_authorization_request]: the
    header text or an already parsed challenge. *)
Inductive challenge_arg : Type :=
  | ChallengeHeader (header : string)
  | ChallengeObject (challenge : DigestChallenge.t).

Definition challenge_truthy (o : option challenge_arg) : bool :=
  match o with
  | None => false
  | Some (ChallengeHeader header) => nonempty header
  | Some (ChallengeObject _) => true
  end.

Definition str_in (s : string) (l : list string) : bool := existsb (String.eqb s) l.

Definition dict_contains (parts : gmap string string) (key : string) : bool :=
  match parts !! key with Some _ => true | None => false end.

(** [parts[key]]. *)
Definition dict_get (parts : gmap string string) (key : string) : result string :=
  match parts !! key with
  | Some v => Return v
  | None => Raise (KeyError key)
  end.

(** A keyword argument of a namedtuple constructor. *)
Definition kwarg (parts : gmap string string) (key : string) : result string :=
  match parts !! key with
  | Some v => Return v
  | None => Raise (TypeError ("__new__() missing required argument: " +:+ key))
  end.

Definition raise_if (c : bool) (e : exn) : result unit :=
  if c then Raise e else Return tt.

Definition hex_alphabet : string := "0123456789ABCDEF".

(** ** The header codec, from its specification *)

Module utils.

Definition is_lws (c : ascii) : bool :=
  let n := code c in (n =? 32) || (n =? 9) || (n =? 10) || (n =? 13).

(** RFC 2616 [token] characters: printable US-ASCII without the separators. *)
Definition is_separator (c : ascii) : bool :=
  char_in c "()<>@,;:/[]?={}" || Ascii.eqb c backslash || Ascii.eqb c dquote.

Definition is_token_char (c : ascii) : bool :=
  let n := code c in (32 <? n) && (n <? 127) && negb (is_separator c).

Definition is_token (s : string) : bool := nonempty s && str_all is_token_char s.

Definition cons_head (c : ascii) (pieces : list string) : list string :=
  match pieces with
  | piece :: rest => String c piece :: rest
  | [] => [String c EmptyString]
  end.

(** The segments between commas.  Every comma separates, one inside a
    quoted string too: the string is cut there, and neither half is a
    well-formed segment. *)
Fixpoint split_comma (s : string) : list string :=
  match s with
  | EmptyString => [EmptyString]
  | String c s' =>
      if Ascii.eqb c "," then EmptyString :: split_comma s'
      else cons_head c (split_comma s')
  end.

Fixpoint lstrip (s : string) : string :=
  match s with
  | EmptyString => EmptyString
  | String c s' => if is_lws c then lstrip s' else s
  end.

Fixpoint rstrip (s : string) : string :=
  match s with
  | EmptyString => EmptyString
  | String c s' =>
      match rstrip s' with
      | EmptyString => if is_lws c then EmptyString else String c EmptyString
      | r => String c r
      end
  end.

Definition strip (s : string) : string := rstrip (lstrip s).

(** The text before and after the first [=]. *)
Fixpoint split_eq (s : string) : option (string * string) :=
  match s with
  | EmptyString => None
  | String c s' =>
      if Ascii.eqb c "=" then Some (EmptyString, s')
      else match split_eq s' with
           | Some (k, v) => Some (String c k, v)
           | None => None
           end
  end.

(** The content of a quoted-string, read from after its opening quote: a
    backslash escapes a double quote or a backslash, and the closing quote
    ends the segment. *)
Fixpoint unquote (s : string) : option string :=
  match s with
  | EmptyString => None
  | String c s' =>
      if Ascii.eqb c dquote then
        match s' with EmptyString => Some EmptyString | String _ _ => None end
      else if Ascii.eqb c backslash then
        match s' with
        | String e s'' =>
            if Ascii.eqb e dquote || Ascii.eqb e backslash
            then option_map (String e) (unquote s'') else None
        | EmptyString => None
        end
      else option_map (String c) (unquote s')
  end.

Definition parse_value (v : string) : option string :=
  match v with
  | String c v' => if Ascii.eqb c dquote then unquote v' else if is_token v then Some v else None
  | EmptyString => None
  end.

(** One segment: [token "=" (quoted-string | token)], blanks trimmed. *)
Definition parse_part (segment : string) : option (string * string) :=
  match split_eq (strip segment) with
  | Some (k, v) =>
      if is_token k then option_map (pair k) (parse_value v) else None
  | None => None
  end.

Fixpoint parse_all (segments : list string) : option (list (string * string)) :=
  match segments with
  | [] => Some []
  | segment :: rest =>
      match parse_part segment, parse_all rest with
      | Some kv, Some kvs => Some (kv :: kvs)
      | _, _ => None
      end
  end.

(** Modelled from the spec: [python_digest.utils.parse_parts], whose source
    is not among the files of the repository at hand.  Section 4.1: the input
    is a comma-separated list; each segment is
    [token "=" (quoted-string | token)] with blanks trimmed, a quoted-string
    escaping double quote and backslash with a backslash; one unparseable
    segment fails the whole parse; [defaults] are merged at lower precedence
    than the parsed values.  On commas inside a quoted string the sections of
    the specification differ; the model follows section 9 and the known issue
    that the docstring of [parse_digest_response] records, by which the parse
    fails when a quoted string holds a comma. *)
Definition parse_parts (parts_string : string) (defaults : gmap string string)
  : option (gmap string string) :=
  match parse_all (split_comma parts_string) with
  | Some kvs =>
      Some (foldl (fun m kv => <[kv.1 := kv.2]> m) ∅ kvs ∪ defaults)
  | None => None
  end.

Fixpoint escape (s : string) : string :=
  match s with
  | EmptyString => EmptyString
  | String c s' =>
      if Ascii.eqb c dquote || Ascii.eqb c backslash
      then String backslash (String c (escape s'))
      else String c (escape s')
  end.

Definition quoted (v : string) : string :=
  String dquote (escape v +:+ String dquote EmptyString).

Definition bare_keys : list string := ["algorithm"; "qop"; "nc"; "stale"].

Definition format_part (kv : string * string) : string :=
  kv.1 +:+ "=" +:+ (if str_in kv.1 bare_keys then kv.2 else quoted kv.2).

(** Modelled from the spec: [python_digest.utils.format_parts], whose source
    is not among the files of the repository at hand.  Section 4.1:
    algorithm, qop, nc and stale are bare tokens; every other value is quoted
    with backslash and double quote escaped; section 6 separates the
    parameters by a comma and a blank. *)
Definition format_parts (kwargs : list (string * string)) : string :=
  String.concat ", " (map format_part kwargs).

End utils.

#[global] Instance spec_codec : Codec :=
  {| parse_parts := utils.parse_parts; format_parts := utils.format_parts |}.


(** ** python_digest *)

Section python_digest.

Context {hashlib : Hashlib} {codec : Codec}.

Definition _REQUIRED_DIGEST_RESPONSE_PARTS : list string :=
  ["username"; "realm"; "nonce"; "uri"; "response"; "algorithm"; "opaque";
   "qop"; "nc"; "cnonce"].

Definition _REQUIRED_DIGEST_CHALLENGE_PARTS : list string :=
  ["realm"; "nonce"; "stale"; "algorithm"; "opaque"; "qop"].

Definition _AVAILABLE_HASH_FUNCS : list string :=
  ["MD5"; "SHA-256"; "SHA-512"]
  ++ match sha512_256 with Some _ => ["SHA-512-256"] | None => [] end.

(** The function returned takes the bytes to the [hexdigest()] of the hash
    object; the [SHA-512-256] wrapper calls [hashlib.new] when it is applied,
    and that raises [ValueError] where the primitive is missing. *)
Definition get_hash_func (algorithm : string) : string -> result string :=
  if String.eqb algorithm "SHA-256" then fun data => Return (sha256 data)
  else if String.eqb algorithm "SHA-512-256" then
    fun data =>
      match sha512_256 with
      | Some new_sha512_256 => Return (new_sha512_256 data)
      | None => Raise (ValueError "unsupported hash type sha512_256")
      end
  else if String.eqb algorithm "SHA-512" then fun data => Return (sha512 data)
  else fun data => Return (md5 data).

(** [timestamp] is used through ["%s"] only and stands for that rendering. *)
Definition calculate_nonce (timestamp secret : string) (salt : option string) (g : Rng)
  : string * Rng :=
  let '(salt, g) :=
    match salt with
    | Some s => if nonempty s then (s, g) else choices hex_alphabet 4 g
    | None => choices hex_alphabet 4 g
    end in
  (timestamp +:+ ":" +:+ salt +:+ ":"
     +:+ md5 (encode_utf8 (timestamp +:+ ":" +:+ salt +:+ ":" +:+ secret)), g).

Definition validate_nonce (nonce secret : string) (g : Rng) : bool * Rng :=
  match split ":" nonce 2 with
  | [timestamp; salt; nonce_signature] =>
      let '(calculated_nonce, g) := calculate_nonce timestamp secret (Some salt) g in
      if negb (String.eqb nonce calculated_nonce) then (false, g) else (true, g)
  | _ => (false, g)
  end.

(** [realm] is text here; the [bytes] realm the source also admits is not
    modelled. *)
Definition calculate_partial_digest (username realm password algorithm : string)
  : result string :=
  let realm := encode_utf8 realm in
  let hash_func := get_hash_func algorithm in
  hash_func (encode_utf8 username +:+ ":" +:+ realm +:+ ":" +:+ encode_utf8 password).

Definition build_digest_challenge (timestamp secret realm opaque : string) (stale : bool)
    (algorithm : string) (g : Rng) : string * Rng :=
  let '(nonce, g) := calculate_nonce timestamp secret None g in
  ("Digest " +:+ format_parts [("realm", realm); ("qop", "auth"); ("nonce", nonce);
                               ("opaque", opaque); ("algorithm", algorithm);
                               ("stale", if stale then "true" else "false")], g).

Definition calculate_request_digest (method partial_digest : string)
    (digest_response : option DigestResponse.t)
    (uri nonce : option string) (nonce_count : option Z)
    (client_nonce algorithm : option string) : result string :=
  '(uri, nonce, nonce_count, client_nonce, algorithm) ←
    match digest_response with
    | Some digest_response =>
        _ ← raise_if (truthy uri || truthy nonce
                      || match nonce_count with Some n => negb (n =? 0) | None => false end
                      || truthy client_nonce || truthy algorithm)
              (Exception ("Both digest_response and one or more "
                          +:+ "individual parameters were sent."));
        Return (DigestResponse.uri digest_response,
                DigestResponse.nonce digest_response,
                DigestResponse.nc digest_response,
                DigestResponse.cnonce digest_response,
                Some (DigestResponse.algorithm digest_response))
    | None =>
        match uri, nonce, nonce_count, client_nonce with
        | Some uri, Some nonce, Some nonce_count, Some client_nonce =>
            if nonempty uri && nonempty nonce && nonempty client_nonce
            then Return (uri, nonce, nonce_count, client_nonce, algorithm)
            else Raise (Exception
                   "Neither digest_response nor all individual parameters were sent.")
        | _, _, _, _ =>
            Raise (Exception
              "Neither digest_response nor all individual parameters were sent.")
        end
    end;
  let algorithm := if truthy algorithm then default "" algorithm else "MD5" in
  let hash_func := get_hash_func algorithm in
  ha2 ← hash_func (encode_utf8 (method +:+ ":" +:+ uri));
  let data := nonce +:+ ":" +:+ format_08x nonce_count +:+ ":" +:+ client_nonce
              +:+ ":" +:+ "auth" +:+ ":" +:+ ha2 in
  kd ← hash_func (encode_utf8 (partial_digest +:+ ":" +:+ data));
  Return kd.

(** [float] is the builtin, [None] standing for its [ValueError]. *)
Definition get_nonce_timestamp {F : Type} (float : string -> option F) (nonce : string)
  : option F :=
  match split ":" nonce 2 with
  | [timestamp; _; _] => float timestamp
  | _ => None
  end.

Definition _check_required_parts (parts : option (gmap string string))
    (required_parts : list string) : bool :=
  match parts with
  | None => false
  | Some parts =>
      let missing_parts :=
        List.filter (fun part => negb (dict_contains parts part)) required_parts in
      Nat.eqb (List.length missing_parts) 0
  end.

(** [parts] is the mapping as parsed; the entry that the source overwrites in
    place ([nc] by its integer value) reaches the record as [nc] here.  Only
    the required names are read, as the source's filter keeps only those. *)
Definition DigestResponse_new (parts : gmap string string) (nc : Z)
  : result DigestResponse.t :=
  username ← kwarg parts "username";
  realm ← kwarg parts "realm";
  nonce ← kwarg parts "nonce";
  uri ← kwarg parts "uri";
  response ← kwarg parts "response";
  algorithm ← kwarg parts "algorithm";
  opaque ← kwarg parts "opaque";
  qop ← kwarg parts "qop";
  _ ← kwarg parts "nc";
  cnonce ← kwarg parts "cnonce";
  Return (DigestResponse.mk username realm nonce uri response algorithm opaque qop nc
            cnonce).

Definition DigestChallenge_new (parts : gmap string string) (stale : bool)
  : result DigestChallenge.t :=
  realm ← kwarg parts "realm";
  nonce ← kwarg parts "nonce";
  _ ← kwarg parts "stale";
  algorithm ← kwarg parts "algorithm";
  opaque ← kwarg parts "opaque";
  qop ← kwarg parts "qop";
  Return (DigestChallenge.mk realm nonce stale algorithm opaque qop).

(** What subscripting does to the value of [parse_parts]. *)
Definition subscriptable (parts : option (gmap string string))
  : result (gmap string string) :=
  match parts with
  | Some parts => Return parts
  | None => Raise (TypeError "'NoneType' object is not subscriptable")
  end.

Definition parse_digest_response (digest_response_string : string)
  : result (option DigestResponse.t) :=
  let parts := parse_parts digest_response_string {["algorithm" := "MD5"]} in
  if negb (_check_required_parts parts _REQUIRED_DIGEST_RESPONSE_PARTS) then Return None
  else
    parts ← subscriptable parts;
    nc ← dict_get parts "nc";
    if negb (nonempty nc)
       || negb (Nat.eqb (List.length
            (List.filter (fun c => negb (char_in c "0123456789abcdefABCDEF"))
               (list_ascii_of_string nc))) 0)
    then Return None
    else
      nc ← int_16 nc;
      digest_response ← DigestResponse_new parts nc;
      if negb (str_in (DigestResponse.algorithm digest_response) _AVAILABLE_HASH_FUNCS)
      then Return None
      else if negb (String.eqb "auth" (DigestResponse.qop digest_response))
      then Return None
      else Return (Some digest_response).

Definition is_digest_credential (authorization_header : string) : bool :=
  String.eqb (lower (take 7 authorization_header)) "digest ".

Definition parse_digest_credentials (authorization_header : string)
  : result (option DigestResponse.t) :=
  if negb (is_digest_credential authorization_header) then Return None
  else parse_digest_response (drop 7 authorization_header).

Definition is_digest_challenge (authentication_header : string) : bool :=
  String.eqb (lower (take 7 authentication_header)) "digest ".

Definition parse_digest_challenge (authentication_header : string)
  : result (option DigestChallenge.t) :=
  if negb (is_digest_challenge authentication_header) then Return None
  else
    let parts := parse_parts (drop 7 authentication_header)
                   {["algorithm" := "MD5"; "stale" := "false"]} in
    if negb (_check_required_parts parts _REQUIRED_DIGEST_CHALLENGE_PARTS) then Return None
    else
      parts ← subscriptable parts;
      stale ← dict_get parts "stale";
      let stale := String.eqb (lower stale) "true" in
      digest_challenge ← DigestChallenge_new parts stale;
      if negb (str_in (DigestChallenge.algorithm digest_challenge) _AVAILABLE_HASH_FUNCS)
      then Return None
      else if negb (String.eqb "auth" (DigestChallenge.qop digest_challenge))
      then Return None
      else Return (Some digest_challenge).

Definition build_authorization_request (username method uri : string) (nonce_count : Z)
    (digest_challenge : option challenge_arg)
    (realm nonce opaque password request_digest client_nonce algorithm : option string)
    (g : Rng) : result string * Rng :=
  let '(client_nonce, g) :=
    match client_nonce with
    | Some c => if nonempty c then (c, g) else choices hex_alphabet 32 g
    | None => choices hex_alphabet 32 g
    end in
  (_ ← raise_if (challenge_truthy digest_challenge
                 && (truthy realm || truthy nonce || truthy opaque || truthy algorithm))
         (Exception ("Both digest_challenge and one or more of realm, nonce, opaque "
                     +:+ "and algorithm" +:+ "were sent."));
   '(realm, nonce, opaque, algorithm) ←
     (let from_challenge (digest_challenge : DigestChallenge.t) :=
        Return (DigestChallenge.realm digest_challenge,
                DigestChallenge.nonce digest_challenge,
                DigestChallenge.opaque digest_challenge,
                Some (DigestChallenge.algorithm digest_challenge)) in
      let from_arguments :=
        match realm, nonce, opaque with
        | Some realm, Some nonce, Some opaque =>
            if nonempty realm && nonempty nonce && nonempty opaque
            then Return (realm, nonce, opaque, algorithm)
            else Raise (Exception
                   "Either digest_challenge or realm, nonce, and opaque must be sent.")
        | _, _, _ =>
            Raise (Exception
              "Either digest_challenge or realm, nonce, and opaque must be sent.")
        end in
      match digest_challenge with
      | Some (ChallengeHeader digest_challenge_header) =>
          if nonempty digest_challenge_header then
            parsed ← parse_digest_challenge digest_challenge_header;
            match parsed with
            | Some digest_challenge => from_challenge digest_challenge
            | None =>
                Raise (Exception
                  ("The provided digest challenge header could not be parsed: "
                   +:+ digest_challenge_header))
            end
          else from_arguments
      | Some (ChallengeObject digest_challenge) => from_challenge digest_challenge
      | None => from_arguments
      end);
   let algorithm := if truthy algorithm then default "" algorithm else "MD5" in
   request_digest ←
     (if truthy password && truthy request_digest then
        Raise (Exception "Both password and calculated request_digest were sent.")
      else if negb (truthy request_digest) then
        _ ← raise_if (negb (truthy password))
              (Exception "Either password or calculated request_digest must be provided.");
        partial_digest ←
          calculate_partial_digest username realm (default "" password) algorithm;
        calculate_request_digest method partial_digest None (Some uri) (Some nonce)
          (Some nonce_count) (Some client_nonce) (Some algorithm)
      else Return (default "" request_digest));
   Return ("Digest " +:+ format_parts
             [("username", username); ("realm", realm); ("nonce", nonce); ("uri", uri);
              ("response", request_digest); ("algorithm", algorithm);
              ("opaque", opaque); ("qop", "auth"); ("nc", format_08x nonce_count);
              ("cnonce", client_nonce)]),
   g).

End python_digest.

(** ** Notions the properties are stated with *)

(** The [width] low hexadecimal digits of [n], most significant first. *)
Fixpoint hex_fixed (width : nat) (n : Z) : string :=
  match width with
  | O => EmptyString
  | S w => hex_fixed w (n / 16) +:+ String (hex_digit (n mod 16)) EmptyString
  end.

(** [lacks sep s]: no character of [s] is [sep]. *)
Definition lacks (sep : ascii) (s : string) : bool :=
  str_all (fun c => negb (Ascii.eqb c sep)) s.

(** What [hexdigest()] promises of a primitive: lowercase hexadecimal digits. *)
Definition hexdigest_hex (hash : string -> string) : Prop :=
  forall data, str_all is_lower_hex (hash data) = true.

Definition is_hex_char (c : ascii) : bool := char_in c "0123456789abcdefABCDEF".

(** One or more hexadecimal digits. *)
Definition hex_digits (s : string) : bool := nonempty s && str_all is_hex_char s.

(** The unsigned integer a digit string denotes in base 16. *)
Definition hex_value (s : string) : Z :=
  fold_left (fun acc c => 16 * acc + default 0 (hex_val c)) (list_ascii_of_string s) 0.

Definition given {A : Type} (o : option A) : bool :=
  match o with Some _ => true | None => false end.

Definition nonzero (nonce_count : option Z) : bool :=
  match nonce_count with Some n => negb (n =? 0) | None => false end.

(** How often [c] occurs in [s]. *)
Fixpoint count_char (c : ascii) (s : string) : nat :=
  match s with
  | EmptyString => O
  | String x s' => (if Ascii.eqb x c then 1 else 0) + count_char c s'
  end.

(** The generator after [n] draws. *)
Definition advance (n : nat) (g : Rng) : Rng := fun i => g (n + i)%nat.

(** The value of a part in what [parse_parts] returned, if it returned a
    mapping that has the part. *)
Definition part (parsed : option (gmap string string)) (key : string) : option string :=
  parsed ≫= (fun parts => parts !! key).

Section notions.

Context {hashlib : Hashlib}.

(** The provider's primitive for each supported algorithm name. *)
Definition supported_hash (algorithm : string) : option (string -> string) :=
  if String.eqb algorithm "MD5" then Some md5
  else if String.eqb algorithm "SHA-256" then Some sha256
  else if String.eqb algorithm "SHA-512" then Some sha512
  else if String.eqb algorithm "SHA-512-256" then sha512_256
  else None.

(** [hash(partialDigest ":" nonce ":" hex8(nonceCount) ":" clientNonce
    ":auth:" hash(method ":" uri))], hashing the UTF-8 bytes. *)
Definition request_digest_formula (hash : string -> string)
    (method partial_digest uri nonce : string) (nonce_count : Z) (client_nonce : string)
  : string :=
  hash (encode_utf8
    (partial_digest +:+ ":" +:+ nonce +:+ ":" +:+ format_08x nonce_count +:+ ":"
       +:+ client_nonce +:+ ":auth:" +:+ hash (encode_utf8 (method +:+ ":" +:+ uri)))).

(** The algorithm a call computes with: the one named, or MD5. *)
Definition algorithm_or_md5 (algorithm : option string) : string :=
  if truthy algorithm then default EmptyString algorithm else "MD5".

(** Whether the provider has the primitive [get_hash_func] picks. *)
Definition primitive_present (algorithm : string) : bool :=
  match sha512_256 with
  | Some _ => true
  | None => negb (String.eqb algorithm "SHA-512-256")
  end.

(** The credential a mapping of parts stands for, if any. *)
Definition response_of_parts (parts : gmap string string) : option DigestResponse.t :=
  username ← parts !! "username";
  realm ← parts !! "realm";
  nonce ← parts !! "nonce";
  uri ← parts !! "uri";
  response ← parts !! "response";
  algorithm ← parts !! "algorithm";
  opaque ← parts !! "opaque";
  qop ← parts !! "qop";
  nc ← parts !! "nc";
  cnonce ← parts !! "cnonce";
  if hex_digits nc && str_in algorithm _AVAILABLE_HASH_FUNCS && String.eqb "auth" qop
  then Some (DigestResponse.mk username realm nonce uri response algorithm opaque qop
               (hex_value nc) cnonce)
  else None.

(** The challenge a mapping of parts stands for, if any. *)
Definition challenge_of_parts (parts : gmap string string) : option DigestChallenge.t :=
  realm ← parts !! "realm";
  nonce ← parts !! "nonce";
  stale ← parts !! "stale";
  algorithm ← parts !! "algorithm";
  opaque ← parts !! "opaque";
  qop ← parts !! "qop";
  if str_in algorithm _AVAILABLE_HASH_FUNCS && String.eqb "auth" qop
  then Some (DigestChallenge.mk realm nonce (String.eqb (lower stale) "true") algorithm
               opaque qop)
  else None.

(** A parameter list that stands for a credential: parsed, the ten parts
    present, [nc] one or more hexadecimal digits, [qop] equal to [auth], the
    algorithm one of the available ones. *)
Definition well_formed_response (parsed : option (gmap string string)) : Prop :=
  exists parts nc algorithm,
    parsed = Some parts
    /\ (forall k, In k _REQUIRED_DIGEST_RESPONSE_PARTS -> is_Some (parts !! k))
    /\ parts !! "nc" = Some nc /\ hex_digits nc = true
    /\ parts !! "qop" = Some "auth"
    /\ parts !! "algorithm" = Some algorithm
    /\ str_in algorithm _AVAILABLE_HASH_FUNCS = true.

(** A parameter list that stands for a challenge. *)
Definition well_formed_challenge (parsed : option (gmap string string)) : Prop :=
  exists parts algorithm,
    parsed = Some parts
    /\ (forall k, In k _REQUIRED_DIGEST_CHALLENGE_PARTS -> is_Some (parts !! k))
    /\ parts !! "qop" = Some "auth"
    /\ parts !! "algorithm" = Some algorithm
    /\ str_in algorithm _AVAILABLE_HASH_FUNCS = true.

End notions.

(** ** A provider to evaluate the functions on

    Each primitive renders a 32-bit checksum of the bytes; the build has no
    [sha512_256].  Nothing but the interface is drawn from it. *)

Fixpoint checksum (acc : Z) (data : string) : Z :=
  match data with
  | EmptyString => acc
  | String c data' => checksum ((acc * 16777619 + code c) mod 4294967296) data'
  end.

Definition demo_digest (seed : Z) (data : string) : string :=
  format_08x (checksum (seed mod 4294967296) data).

#[global] Instance demo_hashlib : Hashlib :=
  {| md5 := demo_digest 5;
     sha256 := demo_digest 256;
     sha512 := demo_digest 512;
     sha512_256 := None |}.

(** ** Sample headers *)

Definition sample_challenge (algorithm : string) : string :=
  "Digest " +:+ utils.format_parts
    [("realm", "testrealm@host.com"); ("qop", "auth");
     ("nonce", "dcd98b7102dd2f0e8b11d0f600bfb0c093");
     ("opaque", "5ccc069c403ebaf9f0171e9517f40e41"); ("algorithm", algorithm);
     ("stale", "false")].

Definition sample_credentials (nc : string) : string :=
  utils.format_parts
    [("username", "Mufasa"); ("realm", "testrealm@host.com");
     ("nonce", "dcd98b7102dd2f0e8b11d0f600bfb0c093"); ("uri", "/dir/index.html");
     ("response", "6629fae49393a05397450978507c4ef1"); ("algorithm", "MD5");
     ("opaque", "5ccc069c403ebaf9f0171e9517f40e41"); ("qop", "auth"); ("nc", nc);
     ("cnonce", "0a4f113b")].


(** * Properties *)

(** ** Text *)

Lemma app_assoc_str (a b c : string) : (a +:+ b) +:+ c = a +:+ (b +:+ c).
Proof. induction a as [|x a IH]; simpl; [reflexivity | now rewrite IH]. Qed.

Lemma app_empty_r (a : string) : a +:+ EmptyString = a.
Proof. induction a as [|x a IH]; simpl; [reflexivity | now rewrite IH]. Qed.

Lemma length_app_str (a b : string) :
  String.length (a +:+ b) = (String.length a + String.length b)%nat.
Proof. induction a as [|x a IH]; simpl; [reflexivity | now rewrite IH]. Qed.

Lemma str_all_app (p : ascii -> bool) (a b : string) :
  str_all p (a +:+ b) = str_all p a && str_all p b.
Proof.
  induction a as [|x a IH]; simpl; [reflexivity |].
  rewrite IH. now rewrite andb_assoc.
Qed.

Lemma str_all_impl (p q : ascii -> bool) (s : string) :
  (forall c, p c = true -> q c = true) -> str_all p s = true -> str_all q s = true.
Proof.
  intros Hpq. induction s as [|x s IH]; simpl; [reflexivity |].
  rewrite !andb_true_iff. intros [Hx Hs]. split; [now apply Hpq | now apply IH].
Qed.

Lemma eqb_app_prefix (p a b : string) :
  String.eqb (p +:+ a) (p +:+ b) = String.eqb a b.
Proof.
  induction p as [|x p IH]; simpl; [reflexivity |].
  now rewrite Ascii.eqb_refl.
Qed.

Lemma code_range (c : ascii) : 0 <= code c < 256.
Proof.
  unfold code. pose proof (nat_ascii_bounded c). lia.
Qed.

Lemma chr_code (c : ascii) : chr (code c) = c.
Proof. unfold chr, code. rewrite Nat2Z.id. apply ascii_nat_embedding. Qed.

Lemma code_chr (n : Z) : 0 <= n < 256 -> code (chr n) = n.
Proof.
  intros Hn. unfold chr, code. rewrite nat_ascii_embedding; lia.
Qed.

(** ** Hexadecimal rendering *)


Lemma hex_digit_lower (d : Z) : 0 <= d < 16 -> is_lower_hex (hex_digit d) = true.
Proof.
  intros Hd.
  assert (d = 0 \/ d = 1 \/ d = 2 \/ d = 3 \/ d = 4 \/ d = 5 \/ d = 6 \/ d = 7 \/
          d = 8 \/ d = 9 \/ d = 10 \/ d = 11 \/ d = 12 \/ d = 13 \/ d = 14 \/ d = 15)
    as Hcases by lia.
  repeat (destruct Hcases as [-> | Hcases]; [reflexivity |]). now subst.
Qed.

Lemma hex_val_digit (d : Z) : 0 <= d < 16 -> hex_val (hex_digit d) = Some d.
Proof.
  intros Hd.
  assert (d = 0 \/ d = 1 \/ d = 2 \/ d = 3 \/ d = 4 \/ d = 5 \/ d = 6 \/ d = 7 \/
          d = 8 \/ d = 9 \/ d = 10 \/ d = 11 \/ d = 12 \/ d = 13 \/ d = 14 \/ d = 15)
    as Hcases by lia.
  repeat (destruct Hcases as [-> | Hcases]; [reflexivity |]). now subst.
Qed.

Lemma hex_fixed_length (w : nat) (n : Z) : String.length (hex_fixed w n) = w.
Proof.
  revert n. induction w as [|w IH]; intros n; simpl; [reflexivity |].
  rewrite length_app_str, IH. simpl. lia.
Qed.

Lemma hex_fixed_lower (w : nat) (n : Z) : str_all is_lower_hex (hex_fixed w n) = true.
Proof.
  revert n. induction w as [|w IH]; intros n; simpl; [reflexivity |].
  rewrite str_all_app, IH. simpl.
  rewrite hex_digit_lower; [reflexivity | apply Z.mod_pos_bound; lia].
Qed.

Lemma hex_fold_app (a b : string) (acc : Z) :
  hex_fold acc (a +:+ b) =
  match hex_fold acc a with Some v => hex_fold v b | None => None end.
Proof.
  revert acc. induction a as [|x a IH]; intros acc; simpl; [reflexivity |].
  destruct (hex_val x); [apply IH | reflexivity].
Qed.

Lemma hex_fold_fixed (w : nat) (n acc : Z) :
  0 <= n ->
  hex_fold acc (hex_fixed w n) = Some (acc * 16 ^ Z.of_nat w + n mod 16 ^ Z.of_nat w).
Proof.
  revert n acc. induction w as [|w IH]; intros n acc Hn.
  - simpl. rewrite Z.mod_1_r. f_equal. lia.
  - cbn [hex_fixed]. rewrite hex_fold_app, IH by (apply Z.div_pos; lia).
    cbn [hex_fold]. rewrite hex_val_digit by (apply Z.mod_pos_bound; lia).
    f_equal. rewrite Nat2Z.inj_succ, Z.pow_succ_r by lia.
    assert (0 < 16 ^ Z.of_nat w) as Hpos by (apply Z.pow_pos_nonneg; lia).
    rewrite (Z.rem_mul_r n 16 (16 ^ Z.of_nat w)) by lia. lia.
Qed.

Lemma zeros_snoc (w : nat) : zeros w +:+ "0" = String "0" (zeros w).
Proof. induction w as [|w IH]; simpl; [reflexivity | now rewrite IH]. Qed.

Lemma hex_fixed_zero (w : nat) : hex_fixed w 0 = zeros w.
Proof.
  induction w as [|w IH]; [reflexivity |].
  cbn [hex_fixed]. rewrite Zdiv_0_l, IH.
  change (hex_digit (0 mod 16)) with "0"%char. apply zeros_snoc.
Qed.

Lemma zero_pad_snoc (w : nat) (s : string) (d : ascii) :
  zero_pad (S w) (s +:+ String d EmptyString) = zero_pad w s +:+ String d EmptyString.
Proof.
  unfold zero_pad. rewrite length_app_str. simpl String.length.
  replace (S w - (String.length s + 1))%nat with (w - String.length s)%nat by lia.
  now rewrite app_assoc_str.
Qed.

Lemma zero_pad_to_hex_fuel (fuel w : nat) (n : Z) :
  0 <= n < 16 ^ Z.of_nat fuel -> n < 16 ^ Z.of_nat w -> (0 < fuel)%nat -> (0 < w)%nat ->
  zero_pad w (to_hex_fuel fuel n) = hex_fixed w n.
Proof.
  revert w n. induction fuel as [|fuel IH]; intros w n Hn Hw Hf Hw0; [lia |].
  destruct w as [|w]; [lia |].
  cbn [to_hex_fuel hex_fixed].
  destruct (n <? 16) eqn:Hlt.
  - apply Z.ltb_lt in Hlt.
    rewrite Z.div_small, Z.mod_small by lia.
    rewrite hex_fixed_zero. unfold zero_pad. simpl String.length.
    replace (S w - 1)%nat with w by lia. reflexivity.
  - apply Z.ltb_ge in Hlt.
    rewrite zero_pad_snoc. f_equal.
    rewrite Nat2Z.inj_succ, Z.pow_succ_r in Hn, Hw by lia.
    destruct fuel as [|fuel]; [simpl in Hn; lia |].
    destruct w as [|w]; [simpl in Hw; lia |].
    apply IH; [| | lia | lia].
    + split; [apply Z.div_pos; lia | apply Z.div_lt_upper_bound; lia].
    + apply Z.div_lt_upper_bound; lia.
Qed.

Lemma to_hex_fuel_enough (n : Z) : 0 <= n -> n < 16 ^ Z.of_nat (S (Z.to_nat (Z.log2 n))).
Proof.
  intros Hn. rewrite Nat2Z.inj_succ, Z2Nat.id by apply Z.log2_nonneg.
  destruct (Z.eq_dec n 0) as [-> | Hnz]; [reflexivity |].
  pose proof (Z.log2_spec n ltac:(lia)) as [_ Hup].
  eapply Z.lt_le_trans; [exact Hup |].
  apply Z.pow_le_mono_l. lia.
Qed.

(** Below [16 ^ 8] the directive renders exactly eight digits. *)
Lemma format_08x_fixed (n : Z) : 0 <= n < 4294967296 -> format_08x n = hex_fixed 8 n.
Proof.
  intros Hn. unfold format_08x.
  destruct (n <? 0) eqn:Hneg; [apply Z.ltb_lt in Hneg; lia |].
  unfold to_hex. apply zero_pad_to_hex_fuel.
  - split; [lia | apply to_hex_fuel_enough; lia].
  - change (16 ^ Z.of_nat 8) with 4294967296. lia.
  - lia.
  - lia.
Qed.

Lemma format_08x_lower (n : Z) :
  0 <= n < 4294967296 -> str_all is_lower_hex (format_08x n) = true.
Proof. intros Hn. rewrite format_08x_fixed by exact Hn. apply hex_fixed_lower. Qed.

Lemma checksum_range (data : string) (acc : Z) :
  0 <= acc < 4294967296 -> 0 <= checksum acc data < 4294967296.
Proof.
  revert acc. induction data as [|c data IH]; intros acc Hacc; simpl; [exact Hacc |].
  apply IH. apply Z.mod_pos_bound. lia.
Qed.

Lemma demo_digest_lower (seed : Z) (data : string) :
  str_all is_lower_hex (demo_digest seed data) = true.
Proof.
  unfold demo_digest. apply format_08x_lower, checksum_range.
  apply Z.mod_pos_bound. lia.
Qed.


(** ** The scheme test *)

Ltac each_char c := destruct c as [[] [] [] [] [] [] [] []].

Lemma lower_char_digest (c lo up : ascii) :
  In (lo, up) [("d", "D"); ("i", "I"); ("g", "G"); ("e", "E"); ("s", "S"); ("t", "T");
               (" ", " ")]%char ->
  Ascii.eqb (lower_char c) lo = Ascii.eqb c lo || Ascii.eqb c up.
Proof.
  intros Hin. simpl in Hin.
  repeat (destruct Hin as [Heq | Hin];
          [injection Heq as <- <-; each_char c; reflexivity |]).
  destruct Hin.
Qed.

Lemma eqb_either (c lo up : ascii) :
  Ascii.eqb c lo || Ascii.eqb c up = true <-> c = up \/ c = lo.
Proof.
  rewrite orb_true_iff, !Ascii.eqb_eq. tauto.
Qed.

(** The test of both [is_digest_credential] and [is_digest_challenge], on
    the first seven characters. *)
Lemma digest_prefix_chars (c1 c2 c3 c4 c5 c6 c7 : ascii) (rest : string) :
  String.eqb
    (lower (take 7 (String c1 (String c2 (String c3 (String c4 (String c5
       (String c6 (String c7 rest))))))))) "digest " = true <->
  (c1 = "D" \/ c1 = "d")%char /\ (c2 = "I" \/ c2 = "i")%char /\
  (c3 = "G" \/ c3 = "g")%char /\ (c4 = "E" \/ c4 = "e")%char /\
  (c5 = "S" \/ c5 = "s")%char /\ (c6 = "T" \/ c6 = "t")%char /\ c7 = " "%char.
Proof.
  cbn [take lower str_map String.eqb].
  rewrite (lower_char_digest c1 "d" "D"), (lower_char_digest c2 "i" "I"),
    (lower_char_digest c3 "g" "G"), (lower_char_digest c4 "e" "E"),
    (lower_char_digest c5 "s" "S"), (lower_char_digest c6 "t" "T"),
    (lower_char_digest c7 " " " ") by (simpl; tauto).
  rewrite <- !eqb_either.
  destruct (Ascii.eqb c1 "d" || Ascii.eqb c1 "D"); [| intuition discriminate].
  destruct (Ascii.eqb c2 "i" || Ascii.eqb c2 "I"); [| intuition discriminate].
  destruct (Ascii.eqb c3 "g" || Ascii.eqb c3 "G"); [| intuition discriminate].
  destruct (Ascii.eqb c4 "e" || Ascii.eqb c4 "E"); [| intuition discriminate].
  destruct (Ascii.eqb c5 "s" || Ascii.eqb c5 "S"); [| intuition discriminate].
  destruct (Ascii.eqb c6 "t" || Ascii.eqb c6 "T"); [| intuition discriminate].
  rewrite <- (Ascii.eqb_eq c7 " ").
  destruct (Ascii.eqb c7 " " || Ascii.eqb c7 " ") eqn:H7.
  - apply orb_true_iff in H7. intuition.
  - apply orb_false_iff in H7. destruct H7 as [H7 _]. rewrite H7. intuition discriminate.
Qed.

Lemma short_is_not_digest (header : string) :
  (String.length header < 7)%nat -> String.eqb (lower (take 7 header)) "digest " = false.
Proof.
  intros Hlen.
  do 7 (destruct header as [|? header];
        [cbn [take lower str_map String.eqb]; repeat (destruct (Ascii.eqb _ _)); reflexivity |]).
  simpl in Hlen. lia.
Qed.

(** C9: [is_digest_credential] and [is_digest_challenge] hold exactly of the
    headers whose first seven characters are [Digest ] in either case of each
    letter; so they fail on headers shorter than seven characters and on
    those of another scheme, such as [Basic]. *)
Theorem is_digest_scheme_prefix (header : string) :
  (is_digest_credential header = true <->
   exists (c1 c2 c3 c4 c5 c6 : ascii) (rest : string),
     header = String c1 (String c2 (String c3 (String c4 (String c5
                (String c6 (String " " rest))))))
     /\ (c1 = "D" \/ c1 = "d")%char /\ (c2 = "I" \/ c2 = "i")%char
     /\ (c3 = "G" \/ c3 = "g")%char /\ (c4 = "E" \/ c4 = "e")%char
     /\ (c5 = "S" \/ c5 = "s")%char /\ (c6 = "T" \/ c6 = "t")%char)
  /\ is_digest_challenge header = is_digest_credential header
  /\ ((String.length header < 7)%nat -> is_digest_credential header = false)
  /\ (forall rest, is_digest_credential ("Basic " +:+ rest) = false
                   /\ is_digest_challenge ("Basic " +:+ rest) = false).
Proof.
  split; [| split; [reflexivity | split]].
  - unfold is_digest_credential. split.
    + intros Htest.
      destruct (Nat.lt_ge_cases (String.length header) 7) as [Hshort | Hlong].
      { rewrite short_is_not_digest in Htest by exact Hshort. discriminate. }
      destruct header as [|c1 header]; [simpl in Hlong; lia |].
      destruct header as [|c2 header]; [simpl in Hlong; lia |].
      destruct header as [|c3 header]; [simpl in Hlong; lia |].
      destruct header as [|c4 header]; [simpl in Hlong; lia |].
      destruct header as [|c5 header]; [simpl in Hlong; lia |].
      destruct header as [|c6 header]; [simpl in Hlong; lia |].
      destruct header as [|c7 header]; [simpl in Hlong; lia |].
      apply digest_prefix_chars in Htest.
      destruct Htest as (H1 & H2 & H3 & H4 & H5 & H6 & ->).
      exists c1, c2, c3, c4, c5, c6, header. tauto.
    + intros (c1 & c2 & c3 & c4 & c5 & c6 & rest & -> & H1 & H2 & H3 & H4 & H5 & H6).
      apply digest_prefix_chars. tauto.
  - apply short_is_not_digest.
  - intros rest. split; reflexivity.
Qed.

(** ** Nonces *)


Lemma lacks_app (sep : ascii) (a b : string) :
  lacks sep (a +:+ b) = lacks sep a && lacks sep b.
Proof. apply str_all_app. Qed.

Lemma split_zero (sep : ascii) (s : string) : split sep s 0 = [s].
Proof. destruct s; reflexivity. Qed.

Lemma split_piece (sep : ascii) (a rest : string) (m : nat) :
  lacks sep a = true ->
  split sep (a +:+ String sep rest) (S m) = a :: split sep rest m.
Proof.
  induction a as [|c a IH]; intros Ha.
  - simpl. now rewrite Ascii.eqb_refl.
  - simpl in Ha. apply andb_true_iff in Ha as [Hc Ha].
    simpl. apply negb_true_iff in Hc. rewrite Hc.
    now rewrite (IH Ha).
Qed.

Lemma split_three (sep : ascii) (a b c : string) :
  lacks sep a = true -> lacks sep b = true ->
  split sep (a +:+ String sep (b +:+ String sep c)) 2 = [a; b; c].
Proof.
  intros Ha Hb. now rewrite !split_piece, split_zero.
Qed.

Lemma split_nonce (a b c : string) :
  lacks ":" a = true -> lacks ":" b = true ->
  split ":" (a +:+ ":" +:+ b +:+ ":" +:+ c) 2 = [a; b; c].
Proof. exact (split_three ":" a b c). Qed.

(** What three pieces say about the text that was split. *)
Lemma split_three_inv (sep : ascii) (s a b c : string) :
  split sep s 2 = [a; b; c] -> s = a +:+ String sep (b +:+ String sep c).
Proof.
  revert a. induction s as [|x s IH]; intros a Hsplit; [discriminate |].
  simpl in Hsplit. destruct (Ascii.eqb x sep) eqn:Hx.
  - apply Ascii.eqb_eq in Hx as ->.
    injection Hsplit as <- Hrest. simpl. f_equal.
    clear IH. revert b Hrest. induction s as [|y s IH]; intros b Hrest; [discriminate |].
    simpl in Hrest. destruct (Ascii.eqb y sep) eqn:Hy.
    + apply Ascii.eqb_eq in Hy as ->. rewrite split_zero in Hrest.
      now injection Hrest as <- <-.
    + destruct (split sep s 1) as [|piece pieces] eqn:Hs; [discriminate |].
      injection Hrest as <- ->. simpl. f_equal. now apply IH.
  - destruct (split sep s 2) as [|piece pieces] eqn:Hs; [discriminate |].
    injection Hsplit as <- ->. simpl. f_equal. now apply IH.
Qed.

Lemma hex_alphabet_choice (g : Rng) :
  char_in (fst (choice hex_alphabet g)) hex_alphabet = true.
Proof.
  unfold choice. cbn [fst]. change (String.length hex_alphabet) with 16%nat.
  pose proof (Nat.mod_upper_bound (g O) 16 ltac:(lia)) as Hlt.
  destruct (g O mod 16)%nat as [|k]; [reflexivity |].
  do 15 (destruct k as [|k]; [reflexivity |]). lia.
Qed.

Lemma choices_alphabet (n : nat) (g : Rng) :
  str_all (fun c => char_in c hex_alphabet) (fst (choices hex_alphabet n g)) = true
  /\ String.length (fst (choices hex_alphabet n g)) = n.
Proof.
  revert g. induction n as [|n IH]; intros g; [now split |].
  cbn [choices]. pose proof (hex_alphabet_choice g) as Hc.
  destruct (choice hex_alphabet g) as [c g1]. cbn [fst] in Hc.
  specialize (IH g1). destruct (choices hex_alphabet n g1) as [s g2].
  cbn [fst] in *. simpl. rewrite Hc. destruct IH as [-> ->]. now split.
Qed.

Lemma hex_alphabet_not_colon (c : ascii) :
  char_in c hex_alphabet = true -> negb (Ascii.eqb c ":") = true.
Proof. each_char c; intros H; try reflexivity; discriminate H. Qed.

Lemma lower_hex_not_colon (c : ascii) :
  is_lower_hex c = true -> negb (Ascii.eqb c ":") = true.
Proof. each_char c; intros H; try reflexivity; discriminate H. Qed.

(** The salt the module draws: four characters of the alphabet, none a colon. *)
Lemma random_salt (g : Rng) :
  exists (c : ascii) (s : string),
    fst (choices hex_alphabet 4 g) = String c s
    /\ char_in c hex_alphabet = true
    /\ lacks ":" (String c s) = true.
Proof.
  destruct (choices_alphabet 4 g) as [Hall Hlen].
  destruct (fst (choices hex_alphabet 4 g)) as [|c s]; [discriminate |].
  exists c, s. split; [reflexivity |]. split.
  - simpl in Hall. now apply andb_true_iff in Hall as [-> _].
  - unfold lacks. eapply str_all_impl; [| exact Hall]. apply hex_alphabet_not_colon.
Qed.

(** The first two of three pieces hold no separator. *)
Lemma split_pieces_lack (sep : ascii) (s a b c : string) :
  split sep s 2 = [a; b; c] -> lacks sep a = true /\ lacks sep b = true.
Proof.
  revert a. induction s as [|x s IH]; intros a Hsplit; [discriminate |].
  simpl in Hsplit. destruct (Ascii.eqb x sep) eqn:Hx.
  - injection Hsplit as <- Hrest. split; [reflexivity |].
    clear IH. revert b Hrest. induction s as [|y s IH]; intros b Hrest; [discriminate |].
    simpl in Hrest. destruct (Ascii.eqb y sep) eqn:Hy.
    + rewrite split_zero in Hrest. now injection Hrest as <- <-.
    + destruct (split sep s 1) as [|piece pieces] eqn:Hs; [discriminate |].
      injection Hrest as <- ->. unfold lacks. simpl. rewrite Hy. now apply IH.
  - destruct (split sep s 2) as [|piece pieces] eqn:Hs; [discriminate |].
    injection Hsplit as <- ->. destruct (IH piece eq_refl) as [Ha Hb].
    split; [| exact Hb]. unfold lacks. simpl. now rewrite Hx.
Qed.

Lemma count_char_app (c : ascii) (a b : string) :
  count_char c (a +:+ b) = (count_char c a + count_char c b)%nat.
Proof. induction a as [|x a IH]; simpl; [reflexivity | rewrite IH; lia]. Qed.

Lemma lacks_count (c : ascii) (s : string) :
  lacks c s = true <-> count_char c s = 0%nat.
Proof.
  unfold lacks. induction s as [|x s IH]; simpl; [tauto |].
  destruct (Ascii.eqb x c); simpl; [split; [discriminate | lia] | exact IH].
Qed.

Section nonce_facts.

Context {hashlib : Hashlib}.

Lemma md5_no_colon (data : string) : hexdigest_hex md5 -> lacks ":" (md5 data) = true.
Proof.
  intros Hhex. unfold lacks. eapply str_all_impl; [| apply Hhex].
  apply lower_hex_not_colon.
Qed.

(** With a salt given, the nonce is the three fields joined by colons. *)
Lemma calculate_nonce_salted (timestamp secret salt : string) (g : Rng) :
  nonempty salt = true ->
  calculate_nonce timestamp secret (Some salt) g =
  (timestamp +:+ ":" +:+ salt +:+ ":"
     +:+ md5 (encode_utf8 (timestamp +:+ ":" +:+ salt +:+ ":" +:+ secret)), g).
Proof. intros Hsalt. unfold calculate_nonce. now rewrite Hsalt. Qed.

(** With none given, or an empty one, the salt is drawn. *)
Lemma calculate_nonce_unsalted (timestamp secret : string) (salt : option string) (g : Rng) :
  truthy salt = false ->
  exists (c : ascii) (s : string),
    char_in c hex_alphabet = true /\ lacks ":" (String c s) = true /\
    fst (calculate_nonce timestamp secret salt g) =
    timestamp +:+ ":" +:+ String c s +:+ ":"
      +:+ md5 (encode_utf8 (timestamp +:+ ":" +:+ String c s +:+ ":" +:+ secret)).
Proof.
  intros Hsalt. destruct (random_salt g) as (c & s & Hdraw & Hc & Hs).
  exists c, s. split; [exact Hc |]. split; [exact Hs |].
  unfold calculate_nonce.
  assert (match salt with
          | Some s0 => if nonempty s0 then (s0, g) else choices hex_alphabet 4 g
          | None => choices hex_alphabet 4 g
          end = choices hex_alphabet 4 g) as ->.
  { destruct salt as [s0|]; [| reflexivity]. simpl in Hsalt. now rewrite Hsalt. }
  destruct (choices hex_alphabet 4 g) as [salt' g']. cbn [fst] in *. now subst.
Qed.

Lemma validate_nonce_true_iff (nonce secret : string) (g : Rng) :
  fst (validate_nonce nonce secret g) = true <->
  exists timestamp salt nonce_signature,
    split ":" nonce 2 = [timestamp; salt; nonce_signature]
    /\ fst (calculate_nonce timestamp secret (Some salt) g) = nonce.
Proof.
  unfold validate_nonce.
  destruct (split ":" nonce 2) as [|t [|s [|sig [|extra pieces]]]] eqn:Hsplit;
    try (split; [discriminate | intros (? & ? & ? & [=] & _)]).
  destruct (calculate_nonce t secret (Some s) g) as [calculated g'] eqn:Hcalc.
  cbn [fst]. split.
  - intros Htrue. exists t, s, sig. split; [reflexivity |].
    destruct (String.eqb nonce calculated) eqn:Heq; [| discriminate].
    apply String.eqb_eq in Heq. now rewrite Hcalc.
  - intros (t' & s' & sig' & [= <- <- <-] & Hsame).
    rewrite Hcalc in Hsame. cbn [fst] in Hsame. subst calculated.
    now rewrite String.eqb_refl.
Qed.

(** A nonce that validates holds two colons and no more: the recomputed
    nonce is two pieces without a colon, a digest, and the two colons that
    join them. *)
Lemma validated_two_colons (nonce secret : string) (g : Rng) :
  hexdigest_hex md5 ->
  fst (validate_nonce nonce secret g) = true -> count_char ":" nonce = 2%nat.
Proof.
  intros Hhex Hv. apply validate_nonce_true_iff in Hv.
  destruct Hv as (t & s & sig & Hsplit & Hcalc).
  destruct (split_pieces_lack ":" nonce t s sig Hsplit) as [Ht Hs].
  apply lacks_count in Ht.
  assert (forall salt data, lacks ":" salt = true ->
            count_char ":" (t +:+ ":" +:+ salt +:+ ":" +:+ md5 data) = 2%nat) as Htwo.
  { intros salt data Hsalt. apply lacks_count in Hsalt.
    pose proof (proj1 (lacks_count ":" (md5 data)) (md5_no_colon data Hhex)) as Hmd5.
    rewrite !count_char_app, Ht, Hsalt, Hmd5. reflexivity. }
  rewrite <- Hcalc. destruct (nonempty s) eqn:Hne.
  - rewrite calculate_nonce_salted by exact Hne. now apply Htwo.
  - destruct (calculate_nonce_unsalted t secret (Some s) g Hne)
      as (c & drawn & _ & Hdrawn & ->).
    now apply Htwo.
Qed.

(** C2, amended: a nonce made by [calculate_nonce] for a timestamp and a
    secret is accepted by [validate_nonce] under that secret, whatever the
    salt drawn, when the text that ["%s"] gives the timestamp holds no colon,
    as the text of every number does; when that text holds a colon the nonce
    is rejected, MD5 digests being hexadecimal.  [validate_nonce] accepts
    exactly the nonces that split into three pieces at the first two colons
    and equal the nonce recomputed from the first two pieces and the
    secret. *)
Theorem validate_nonce_calculate_nonce (timestamp secret : string) (g g' : Rng) :
  (lacks ":" timestamp = true ->
   fst (validate_nonce (fst (calculate_nonce timestamp secret None g)) secret g') = true)
  /\ (hexdigest_hex md5 -> lacks ":" timestamp = false ->
      fst (validate_nonce (fst (calculate_nonce timestamp secret None g)) secret g')
      = false)
  /\ (forall nonce : string,
        fst (validate_nonce nonce secret g') = true <->
        exists t salt nonce_signature,
          split ":" nonce 2 = [t; salt; nonce_signature]
          /\ fst (calculate_nonce t secret (Some salt) g') = nonce).
Proof.
  split; [| split; [| intros nonce; apply validate_nonce_true_iff]].
  - intros Hts.
    destruct (calculate_nonce_unsalted timestamp secret None g eq_refl)
      as (c & s & _ & Hsalt & ->).
    apply validate_nonce_true_iff.
    exists timestamp, (String c s),
      (md5 (encode_utf8 (timestamp +:+ ":" +:+ String c s +:+ ":" +:+ secret))).
    split.
    + apply split_nonce; assumption.
    + now rewrite calculate_nonce_salted.
  - intros Hhex Hts.
    destruct (fst (validate_nonce _ secret g')) eqn:Hv; [| reflexivity].
    apply (validated_two_colons _ _ _ Hhex) in Hv.
    destruct (calculate_nonce_unsalted timestamp secret None g eq_refl)
      as (c & s & _ & _ & Heq).
    rewrite Heq, count_char_app in Hv.
    assert (count_char ":" timestamp <> 0%nat) as Hcount
      by (intros Hzero; apply lacks_count in Hzero; congruence).
    rewrite count_char_app in Hv. simpl in Hv. rewrite count_char_app in Hv.
    simpl in Hv. lia.
Qed.

End nonce_facts.

Lemma validate_nonce_calculate_nonce_witness :
  fst (@validate_nonce demo_hashlib
         (fst (@calculate_nonce demo_hashlib "1263312775.17" "secret" None (fun i => i)))
         "secret" (fun i => i)) = true.
Proof.
  apply (proj1 (@validate_nonce_calculate_nonce demo_hashlib "1263312775.17" "secret"
                  (fun i => i) (fun i => i))).
  reflexivity.
Defined.

(** A timestamp whose text holds a colon: the nonce made for it is split
    at that colon and does not validate. *)
Lemma validate_nonce_calculate_nonce_fails :
  fst (@validate_nonce demo_hashlib
         (fst (@calculate_nonce demo_hashlib "12:34" "secret" None (fun i => i)))
         "secret" (fun i => i)) = false.
Proof. vm_compute. reflexivity. Qed.

(** *** The timestamp of a nonce *)

Section nonce_timestamp.

Context {hashlib : Hashlib} {F : Type} (float : string -> option F).

(** [get_nonce_timestamp] hands the text before the first colon of a nonce
    to [float]: for a nonce made by [calculate_nonce] that text is the
    timestamp's rendering; a nonce that does not split into three pieces, or
    whose first piece [float] rejects, has no timestamp. *)
Theorem get_nonce_timestamp_pieces (timestamp secret nonce : string) (g : Rng) :
  (lacks ":" timestamp = true ->
   get_nonce_timestamp float (fst (calculate_nonce timestamp secret None g))
   = float timestamp)
  /\ (List.length (split ":" nonce 2) <> 3%nat -> get_nonce_timestamp float nonce = None)
  /\ (forall t salt nonce_signature,
        split ":" nonce 2 = [t; salt; nonce_signature] ->
        get_nonce_timestamp float nonce = float t).
Proof.
  split; [| split].
  - intros Hts.
    destruct (calculate_nonce_unsalted timestamp secret None g eq_refl)
      as (c & s & _ & Hsalt & ->).
    unfold get_nonce_timestamp. now rewrite split_nonce.
  - unfold get_nonce_timestamp.
    destruct (split ":" nonce 2) as [|t [|s [|sig [|extra pieces]]]];
      try reflexivity.
    intros Hlen. now contradiction Hlen.
  - intros t salt sig Hsplit. unfold get_nonce_timestamp. now rewrite Hsplit.
Qed.

(** C7, amended: for a timestamp whose text holds no colon, as the text of
    every number, the timestamp of the nonce that [calculate_nonce] makes is
    what [float] reads off that text, that is, the timestamp up to its
    round trip through text; and a nonce has no timestamp exactly when it
    does not split into three pieces or [float] rejects its first piece. *)
Theorem get_nonce_timestamp_float (timestamp secret nonce : string) (g : Rng) :
  (lacks ":" timestamp = true ->
   get_nonce_timestamp float (fst (calculate_nonce timestamp secret None g))
   = float timestamp)
  /\ (get_nonce_timestamp float nonce = None <->
      List.length (split ":" nonce 2) <> 3%nat
      \/ exists t salt nonce_signature,
           split ":" nonce 2 = [t; salt; nonce_signature] /\ float t = None).
Proof.
  split.
  - intros Hts. unfold get_nonce_timestamp, calculate_nonce.
    destruct (random_salt g) as (c & s & Hdraw & _ & Hsalt).
    destruct (choices hex_alphabet 4 g) as [salt g1]. cbn [fst] in *. subst salt.
    now rewrite split_nonce.
  - unfold get_nonce_timestamp.
    destruct (split ":" nonce 2) as [|t [|s [|sig [|extra pieces]]]];
      cbn [List.length].
    1, 2, 3, 5: split; [intros _; left; lia | reflexivity].
    split.
    + intros Hnone. right. now exists t, s, sig.
    + intros [Hlen | (t' & s' & sig' & Hpieces & Hnone)]; [lia |].
      now injection Hpieces as -> _ _.
Qed.

End nonce_timestamp.

Lemma get_nonce_timestamp_pieces_witness :
  get_nonce_timestamp Some
    (fst (@calculate_nonce demo_hashlib "1263312775.17" "secret" None (fun i => i)))
  = Some "1263312775.17".
Proof.
  apply (proj1 (@get_nonce_timestamp_pieces demo_hashlib string Some "1263312775.17"
                  "secret" EmptyString (fun i => i))).
  reflexivity.
Defined.

Lemma get_nonce_timestamp_float_witness :
  get_nonce_timestamp float
    (fst (@calculate_nonce demo_hashlib "1263312775.17" "secret" None (fun i => i)))
  = float "1263312775.17".
Proof.
  apply (proj1 (@get_nonce_timestamp_float demo_hashlib float_value float
                  "1263312775.17" "secret" EmptyString (fun i => i))).
  reflexivity.
Defined.

(** [float] reads more than decimal numbers: a nonce whose first piece is
    [nan] or [inf] has a timestamp. *)
Lemma get_nonce_timestamp_float_fails :
  get_nonce_timestamp float "nan:7A42:0d4ae8b2" = Some NotANumber
  /\ get_nonce_timestamp float "inf:7A42:0d4ae8b2" = Some (Infinite false).
Proof. split; reflexivity. Qed.

(** *** Nonces with an empty salt *)

Lemma split_after_colon (t sig : string) :
  exists b c,
    split ":" (t +:+ "::" +:+ sig) 1 = [b; c] /\ lacks ":" c = false.
Proof.
  induction t as [|x t (b & c & IH & Hc)].
  - exists EmptyString, (String ":" sig). split; reflexivity.
  - simpl. destruct (Ascii.eqb x ":") eqn:Hx.
    + exists EmptyString, (t +:+ "::" +:+ sig). rewrite split_zero. split; [reflexivity |].
      rewrite lacks_app. simpl. apply andb_false_r.
    + change (split ":" (t +:+ String ":" (String ":" sig)) 1)
        with (split ":" (t +:+ "::" +:+ sig) 1).
      rewrite IH. now exists (String x b), c.
Qed.

(** The pieces of [t::sig]: the salt piece is empty, or the last piece holds
    a colon. *)
Lemma split_double_colon (t sig : string) :
  exists a b c,
    split ":" (t +:+ "::" +:+ sig) 2 = [a; b; c]
    /\ (b = EmptyString \/ lacks ":" c = false).
Proof.
  induction t as [|x t (a & b & c & IH & Hbc)].
  - exists EmptyString, EmptyString, sig. split; [| now left].
    simpl. now rewrite split_zero.
  - simpl. destruct (Ascii.eqb x ":") eqn:Hx.
    + destruct (split_after_colon t sig) as (b1 & c1 & Hsplit & Hc).
      change (split ":" (t +:+ String ":" (String ":" sig)) 1)
        with (split ":" (t +:+ "::" +:+ sig) 1).
      rewrite Hsplit. exists EmptyString, b1, c1. split; [reflexivity | now right].
    + change (split ":" (t +:+ String ":" (String ":" sig)) 2)
        with (split ":" (t +:+ "::" +:+ sig) 2).
      rewrite IH. now exists (String x a), b, c.
Qed.

Lemma eqb_lacks (sep : ascii) (a b : string) :
  lacks sep a = false -> lacks sep b = true -> String.eqb a b = false.
Proof.
  intros Ha Hb. apply String.eqb_neq. intros ->. congruence.
Qed.

Section empty_salt.

Context {hashlib : Hashlib}.

(** C10: a nonce whose salt is empty, [t::sig], never validates, whatever
    the secret and the draws of the generator, MD5 digests being hexadecimal:
    either the salt piece is empty and the recomputation puts a drawn,
    non-empty salt in its place, or the last piece holds a colon and no
    digest does. *)
Theorem validate_nonce_empty_salt (t sig secret : string) (g : Rng) :
  hexdigest_hex md5 ->
  fst (validate_nonce (t +:+ "::" +:+ sig) secret g) = false.
Proof.
  intros Hhex.
  destruct (fst (validate_nonce (t +:+ "::" +:+ sig) secret g)) eqn:Hv; [| reflexivity].
  exfalso. apply validate_nonce_true_iff in Hv.
  destruct Hv as (a & b & c & Hsplit & Hcalc).
  destruct (split_double_colon t sig) as (a' & b' & c' & Hsplit' & Hbc).
  rewrite Hsplit in Hsplit'. injection Hsplit' as <- <- <-.
  apply split_three_inv in Hsplit. rewrite Hsplit in Hcalc.
  destruct (nonempty b) eqn:Hb.
  - destruct Hbc as [-> | Hc]; [discriminate |].
    rewrite calculate_nonce_salted in Hcalc by exact Hb. cbn [fst] in Hcalc.
    apply String.eqb_eq in Hcalc.
    change (a +:+ ":" +:+ b +:+ ":" +:+ ?m) with (a +:+ String ":" (b +:+ String ":" m))
      in Hcalc.
    rewrite eqb_app_prefix in Hcalc. simpl in Hcalc.
    rewrite eqb_app_prefix in Hcalc. simpl in Hcalc.
    rewrite String.eqb_sym, (eqb_lacks ":") in Hcalc; [discriminate | exact Hc |].
    now apply md5_no_colon.
  - destruct b; [| discriminate].
    destruct (calculate_nonce_unsalted a secret (Some EmptyString) g eq_refl)
      as (x & s & Hx & _ & Heq).
    rewrite Heq in Hcalc. apply String.eqb_eq in Hcalc.
    change (a +:+ ":" +:+ String x s +:+ ?m) with (a +:+ String ":" (String x (s +:+ m)))
      in Hcalc.
    rewrite eqb_app_prefix in Hcalc. simpl in Hcalc.
    apply hex_alphabet_not_colon, negb_true_iff in Hx. now rewrite Hx in Hcalc.
Qed.

End empty_salt.

Lemma validate_nonce_empty_salt_witness :
  fst (@validate_nonce demo_hashlib "1263312775.17::0d4ae8b2" "secret" (fun i => i))
  = false.
Proof.
  apply (@validate_nonce_empty_salt demo_hashlib "1263312775.17" "0d4ae8b2" "secret"
           (fun i => i)).
  exact (demo_digest_lower 5).
Defined.

(** ** Request digests *)

Ltac unfold_bind :=
  unfold mbind, mret, result_bind, result_ret, Py.bind, raise_if in *; cbn in *.

Section request_digest.

Context {hashlib : Hashlib}.






Lemma supported_hash_available (algorithm : string) :
  str_in algorithm _AVAILABLE_HASH_FUNCS = true <-> is_Some (supported_hash algorithm).
Proof.
  unfold supported_hash, _AVAILABLE_HASH_FUNCS, str_in.
  rewrite existsb_app. cbn [existsb]. rewrite !orb_false_r.
  destruct (String.eqb algorithm "MD5"); [simpl; split; eauto |].
  destruct (String.eqb algorithm "SHA-256"); [simpl; split; eauto |].
  destruct (String.eqb algorithm "SHA-512"); [simpl; split; eauto |].
  destruct sha512_256 as [h|]; simpl.
  - rewrite orb_false_r.
    destruct (String.eqb algorithm "SHA-512-256"); split; eauto;
      try discriminate; intros [? [=]].
  - split; [discriminate |].
    destruct (String.eqb algorithm "SHA-512-256"); intros [? [=]].
Qed.

Lemma supported_hash_nonempty (algorithm : string) (hash : string -> string) :
  supported_hash algorithm = Some hash -> nonempty algorithm = true.
Proof. destruct algorithm; [discriminate | reflexivity]. Qed.

Lemma get_hash_func_supported (algorithm : string) (hash : string -> string) :
  supported_hash algorithm = Some hash ->
  forall data, get_hash_func algorithm data = Return (hash data).
Proof.
  unfold supported_hash, get_hash_func. intros Hs data.
  destruct (String.eqb_spec algorithm "MD5") as [-> | _];
    [simpl; congruence |].
  destruct (String.eqb algorithm "SHA-256"); [congruence |].
  destruct (String.eqb_spec algorithm "SHA-512") as [-> | _];
    [simpl; congruence |].
  destruct (String.eqb algorithm "SHA-512-256"); [| discriminate].
  now rewrite Hs.
Qed.

Lemma get_hash_func_present (algorithm data : string) :
  primitive_present algorithm = true -> exists d, get_hash_func algorithm data = Return d.
Proof.
  unfold primitive_present, get_hash_func. intros Hp.
  destruct (String.eqb algorithm "SHA-256"); [eauto |].
  destruct (String.eqb algorithm "SHA-512-256").
  - destruct sha512_256; [eauto | discriminate].
  - destruct (String.eqb algorithm "SHA-512"); eauto.
Qed.

(** What the call computes once its arguments are resolved. *)
Lemma calculate_request_digest_individual (method partial_digest uri nonce : string)
    (nonce_count : Z) (client_nonce : string) (algorithm : option string) :
  nonempty uri = true -> nonempty nonce = true -> nonempty client_nonce = true ->
  calculate_request_digest method partial_digest None (Some uri) (Some nonce)
    (Some nonce_count) (Some client_nonce) algorithm =
  (ha2 ← get_hash_func (algorithm_or_md5 algorithm) (encode_utf8 (method +:+ ":" +:+ uri));
   get_hash_func (algorithm_or_md5 algorithm)
     (encode_utf8 (partial_digest +:+ ":" +:+ nonce +:+ ":" +:+ format_08x nonce_count
                     +:+ ":" +:+ client_nonce +:+ ":auth:" +:+ ha2))).
Proof.
  intros Hu Hn Hc. unfold calculate_request_digest, algorithm_or_md5.
  rewrite Hu, Hn, Hc. unfold_bind.
  destruct (get_hash_func _ (encode_utf8 (method +:+ String ":" uri))) as [ha2|e];
    [| reflexivity].
  now destruct (get_hash_func _ _).
Qed.

Lemma calculate_request_digest_response (method partial_digest : string)
    (r : DigestResponse.t) (uri nonce : option string) (nonce_count : option Z)
    (client_nonce algorithm : option string) :
  truthy uri || truthy nonce || nonzero nonce_count || truthy client_nonce
    || truthy algorithm = false ->
  calculate_request_digest method partial_digest (Some r) uri nonce nonce_count
    client_nonce algorithm =
  (let alg := algorithm_or_md5 (Some (DigestResponse.algorithm r)) in
   ha2 ← get_hash_func alg (encode_utf8 (method +:+ ":" +:+ DigestResponse.uri r));
   get_hash_func alg
     (encode_utf8 (partial_digest +:+ ":" +:+ DigestResponse.nonce r +:+ ":"
                     +:+ format_08x (DigestResponse.nc r) +:+ ":"
                     +:+ DigestResponse.cnonce r +:+ ":auth:" +:+ ha2))).
Proof.
  intros Hnone. unfold calculate_request_digest, algorithm_or_md5, nonzero in *.
  rewrite Hnone. unfold_bind.
  destruct (get_hash_func _ (encode_utf8 (method +:+ String ":" _))) as [ha2|e];
    [| reflexivity].
  now destruct (get_hash_func _ _).
Qed.

(** C1, amended: for a supported algorithm the call returns
    [hash(partialDigest:nonce:hex8(nonceCount):clientNonce:auth:hash(method:uri))],
    when it is given the individual parameters with uri, nonce and client
    nonce non-empty, and when it is given a [DigestResponse] carrying them;
    [hex8] is eight lowercase digits that read back as the count for counts
    below [16 ^ 8], as for 1 and 255. *)
Theorem calculate_request_digest_formula (method partial_digest uri nonce client_nonce
    algorithm : string) (nonce_count : Z) (hash : string -> string) :
  supported_hash algorithm = Some hash ->
  (nonempty uri = true -> nonempty nonce = true -> nonempty client_nonce = true ->
   calculate_request_digest method partial_digest None (Some uri) (Some nonce)
     (Some nonce_count) (Some client_nonce) (Some algorithm) =
   Return (request_digest_formula hash method partial_digest uri nonce nonce_count
             client_nonce))
  /\ (forall r : DigestResponse.t,
        DigestResponse.uri r = uri -> DigestResponse.nonce r = nonce ->
        DigestResponse.nc r = nonce_count -> DigestResponse.cnonce r = client_nonce ->
        DigestResponse.algorithm r = algorithm ->
        calculate_request_digest method partial_digest (Some r) None None None None None =
        Return (request_digest_formula hash method partial_digest uri nonce nonce_count
                  client_nonce))
  /\ (0 <= nonce_count < 4294967296 ->
        String.length (format_08x nonce_count) = 8%nat
        /\ str_all is_lower_hex (format_08x nonce_count) = true
        /\ int_16 (format_08x nonce_count) = Return nonce_count)
  /\ format_08x 1 = "00000001" /\ format_08x 255 = "000000ff".
Proof.
  intros Hs.
  assert (algorithm_or_md5 (Some algorithm) = algorithm) as Halg.
  { unfold algorithm_or_md5. cbn [truthy].
    now rewrite (supported_hash_nonempty _ _ Hs). }
  split; [| split; [| split; [| split; reflexivity]]].
  - intros Hu Hn Hc.
    rewrite calculate_request_digest_individual by assumption.
    rewrite Halg, (get_hash_func_supported _ _ Hs). unfold_bind.
    now rewrite (get_hash_func_supported _ _ Hs).
  - intros r <- <- <- <- <-.
    rewrite calculate_request_digest_response by reflexivity.
    cbv zeta. rewrite Halg, (get_hash_func_supported _ _ Hs). unfold_bind.
    now rewrite (get_hash_func_supported _ _ Hs).
  - intros Hrange. rewrite format_08x_fixed by exact Hrange.
    split; [apply hex_fixed_length |]. split; [apply hex_fixed_lower |].
    unfold int_16.
    rewrite (hex_fold_fixed 8 nonce_count 0) by lia.
    change (16 ^ Z.of_nat 8) with 4294967296.
    rewrite Z.mod_small by lia.
    pose proof (hex_fixed_length 8 nonce_count) as Hlen.
    destruct (hex_fixed 8 nonce_count); [discriminate Hlen | f_equal; lia].
Qed.


(** C6, amended: the call raises [Exception] when it is given a
    [digest_response] together with a non-empty uri, nonce, client nonce or
    algorithm or a non-zero nonce count, and when it is given no
    [digest_response] and uri, nonce or client nonce is missing or empty or
    the nonce count is missing.  Otherwise, a [digest_response] passed with
    nonce count 0 apart, it returns a digest, provided the provider has the
    primitive of the algorithm in use ([SHA-512-256] raises [ValueError]
    where it is missing). *)
Theorem calculate_request_digest_raises (method partial_digest : string)
    (digest_response : option DigestResponse.t) (uri nonce : option string)
    (nonce_count : option Z) (client_nonce algorithm : option string) :
  (given digest_response = true ->
   truthy uri || truthy nonce || nonzero nonce_count || truthy client_nonce
     || truthy algorithm = true ->
   calculate_request_digest method partial_digest digest_response uri nonce nonce_count
     client_nonce algorithm =
   Raise (Exception
     "Both digest_response and one or more individual parameters were sent."))
  /\ (given digest_response = false ->
      truthy uri && truthy nonce && given nonce_count && truthy client_nonce = false ->
      calculate_request_digest method partial_digest digest_response uri nonce nonce_count
        client_nonce algorithm =
      Raise (Exception
        "Neither digest_response nor all individual parameters were sent."))
  /\ (given digest_response = false ->
      truthy uri && truthy nonce && given nonce_count && truthy client_nonce = true ->
      primitive_present (algorithm_or_md5 algorithm) = true ->
      exists kd, calculate_request_digest method partial_digest digest_response uri nonce
                   nonce_count client_nonce algorithm = Return kd)
  /\ (forall r, digest_response = Some r ->
      truthy uri || truthy nonce || truthy client_nonce || truthy algorithm = false ->
      nonce_count = None ->
      primitive_present (algorithm_or_md5 (Some (DigestResponse.algorithm r))) = true ->
      exists kd, calculate_request_digest method partial_digest digest_response uri nonce
                   nonce_count client_nonce algorithm = Return kd).
Proof.
  split; [| split; [| split]].
  - destruct digest_response as [r|]; [intros _ Hany | discriminate].
    unfold calculate_request_digest, nonzero in *. now rewrite Hany.
  - destruct digest_response as [r|]; [discriminate | intros _ Hmissing].
    unfold calculate_request_digest.
    destruct uri as [uri|], nonce as [nonce|], nonce_count as [n|],
      client_nonce as [client_nonce|]; try reflexivity.
    cbn [truthy given] in Hmissing. rewrite andb_true_r in Hmissing.
    now rewrite Hmissing.
  - destruct digest_response as [r|]; [discriminate | intros _ Hall Hpresent].
    destruct uri as [uri|], nonce as [nonce|], nonce_count as [n|],
      client_nonce as [client_nonce|]; try discriminate;
      try (cbn in Hall; rewrite ?andb_false_r in Hall; discriminate).
    cbn [truthy given] in Hall. rewrite andb_true_r in Hall.
    apply andb_true_iff in Hall as [Hall Hc]. apply andb_true_iff in Hall as [Hu Hn].
    rewrite calculate_request_digest_individual by assumption.
    destruct (get_hash_func_present (algorithm_or_md5 algorithm)
                (encode_utf8 (method +:+ ":" +:+ uri)) Hpresent) as [ha2 ->].
    unfold_bind. now apply get_hash_func_present.
  - intros r -> Hnone -> Hpresent.
    rewrite calculate_request_digest_response.
    + cbv zeta.
      destruct (get_hash_func_present _
                  (encode_utf8 (method +:+ ":" +:+ DigestResponse.uri r)) Hpresent)
        as [ha2 ->].
      unfold_bind. now apply get_hash_func_present.
    + cbn [nonzero]. rewrite orb_false_r.
      apply orb_false_iff in Hnone as [Hnone ->].
      apply orb_false_iff in Hnone as [Hnone ->].
      apply orb_false_iff in Hnone as [-> ->]. reflexivity.
Qed.

End request_digest.

Lemma calculate_request_digest_formula_witness :
  @calculate_request_digest demo_hashlib "GET" "939e7578ed9e3c518a452acd763cce1a" None
    (Some "/dir/index.html") (Some "dcd98b7102dd2f0e8b11d0f600bfb0c093") (Some 1)
    (Some "0a4f113b") (Some "MD5") =
  Return (request_digest_formula (demo_digest 5) "GET" "939e7578ed9e3c518a452acd763cce1a"
            "/dir/index.html" "dcd98b7102dd2f0e8b11d0f600bfb0c093" 1 "0a4f113b").
Proof.
  apply (proj1 (@calculate_request_digest_formula demo_hashlib "GET"
                  "939e7578ed9e3c518a452acd763cce1a" "/dir/index.html"
                  "dcd98b7102dd2f0e8b11d0f600bfb0c093" "0a4f113b" "MD5" 1 (demo_digest 5)
                  eq_refl)); reflexivity.
Defined.

(** With an empty uri among the individual parameters the call raises; a
    count of [16 ^ 8] renders as nine digits. *)
Lemma calculate_request_digest_formula_fails :
  @calculate_request_digest demo_hashlib "GET" "939e7578ed9e3c518a452acd763cce1a" None
    (Some "") (Some "dcd98b7102dd2f0e8b11d0f600bfb0c093") (Some 1) (Some "0a4f113b")
    (Some "MD5") =
  Raise (Exception "Neither digest_response nor all individual parameters were sent.")
  /\ format_08x 4294967296 = "100000000".
Proof. split; reflexivity. Qed.

Lemma calculate_request_digest_raises_witness :
  exists kd,
    @calculate_request_digest demo_hashlib "GET" "939e7578ed9e3c518a452acd763cce1a" None
      (Some "/dir/index.html") (Some "dcd98b7102dd2f0e8b11d0f600bfb0c093") (Some 0)
      (Some "0a4f113b") None = Return kd.
Proof.
  apply (proj1 (proj2 (proj2 (@calculate_request_digest_raises demo_hashlib "GET"
           "939e7578ed9e3c518a452acd763cce1a" None (Some "/dir/index.html")
           (Some "dcd98b7102dd2f0e8b11d0f600bfb0c093") (Some 0) (Some "0a4f113b") None))));
    reflexivity.
Defined.

(** Two calls where the claim and the code part: all four parameters and an
    algorithm whose primitive the provider lacks, which raises; a
    [digest_response] with an empty uri beside it, which returns. *)
Lemma calculate_request_digest_raises_fails :
  @calculate_request_digest demo_hashlib "GET" "939e7578ed9e3c518a452acd763cce1a" None
    (Some "/dir/index.html") (Some "dcd98b7102dd2f0e8b11d0f600bfb0c093") (Some 1)
    (Some "0a4f113b") (Some "SHA-512-256") =
  Raise (ValueError "unsupported hash type sha512_256")
  /\ returns (@calculate_request_digest demo_hashlib "GET"
                "939e7578ed9e3c518a452acd763cce1a"
                (Some (DigestResponse.mk "Mufasa" "testrealm@host.com"
                         "dcd98b7102dd2f0e8b11d0f600bfb0c093" "/dir/index.html"
                         "6629fae49393a05397450978507c4ef1" "MD5"
                         "5ccc069c403ebaf9f0171e9517f40e41" "auth" 1 "0a4f113b"))
                (Some "") None None None None) = true.
Proof. split; reflexivity. Qed.

(** ** Parsing credentials and challenges *)




Lemma is_hex_char_val (c : ascii) : is_hex_char c = true -> is_Some (hex_val c).
Proof. each_char c; intros H; try discriminate H; vm_compute; eauto. Qed.

Lemma hex_fold_value (s : string) (acc : Z) :
  str_all is_hex_char s = true ->
  hex_fold acc s =
  Some (fold_left (fun acc c => 16 * acc + default 0 (hex_val c))
          (list_ascii_of_string s) acc).
Proof.
  revert acc. induction s as [|c s IH]; intros acc Hall; [reflexivity |].
  cbn [str_all] in Hall. apply andb_true_iff in Hall as [Hc Hs].
  destruct (is_hex_char_val c Hc) as [d Hd].
  cbn [hex_fold list_ascii_of_string fold_left]. rewrite Hd. cbn [default].
  now apply IH.
Qed.

Lemma int_16_hex_digits (s : string) :
  hex_digits s = true -> int_16 s = Return (hex_value s).
Proof.
  unfold hex_digits, int_16, hex_value. intros Hs.
  apply andb_true_iff in Hs as [Hne Hall].
  rewrite (hex_fold_value s 0 Hall). now destruct s.
Qed.

(** The guard of line 224, as a test for digit strings. *)
Lemma nc_guard (nc : string) :
  negb (nonempty nc)
  || negb (Nat.eqb (List.length
       (List.filter (fun c => negb (char_in c "0123456789abcdefABCDEF"))
          (list_ascii_of_string nc))) 0) = negb (hex_digits nc).
Proof.
  unfold hex_digits. rewrite negb_andb. f_equal. f_equal.
  induction nc as [|c nc IH]; [reflexivity |].
  cbn [list_ascii_of_string List.filter str_all]. fold (is_hex_char c).
  destruct (is_hex_char c); cbn [negb andb]; [exact IH | reflexivity].
Qed.

Lemma check_required_forallb (parts : gmap string string) (required_parts : list string) :
  _check_required_parts (Some parts) required_parts =
  forallb (dict_contains parts) required_parts.
Proof.
  unfold _check_required_parts.
  induction required_parts as [|k ks IH]; [reflexivity |].
  cbn [List.filter forallb]. destruct (dict_contains parts k); cbn [negb andb];
    [exact IH | reflexivity].
Qed.

Lemma check_required_lookup (parts : gmap string string) (required_parts : list string) :
  _check_required_parts (Some parts) required_parts = true <->
  forall k, In k required_parts -> is_Some (parts !! k).
Proof.
  rewrite check_required_forallb, forallb_forall. unfold dict_contains.
  split; intros Hall k Hk; specialize (Hall k Hk).
  - destruct (parts !! k); [eauto | discriminate].
  - now destruct Hall as [v ->].
Qed.

Section parsing.

Context {hashlib : Hashlib} {codec : Codec}.



Ltac absent_part H :=
  rewrite check_required_forallb; cbn [forallb _REQUIRED_DIGEST_RESPONSE_PARTS
    _REQUIRED_DIGEST_CHALLENGE_PARTS]; unfold dict_contains;
  rewrite H; rewrite ?andb_false_r; reflexivity.

Lemma parse_digest_response_parts (digest_response_string : string) :
  parse_digest_response digest_response_string =
  Return (parse_parts digest_response_string {["algorithm" := "MD5"]}
            ≫= response_of_parts).
Proof.
  unfold parse_digest_response.
  destruct (parse_parts digest_response_string _) as [parts|]; [| reflexivity].
  unfold response_of_parts, mbind, option_bind, result_bind.
  destruct (parts !! "username") as [username|] eqn:H1;
    [| absent_part H1].
  destruct (parts !! "realm") as [realm|] eqn:H2; [| absent_part H2].
  destruct (parts !! "nonce") as [nonce|] eqn:H3; [| absent_part H3].
  destruct (parts !! "uri") as [uri|] eqn:H4; [| absent_part H4].
  destruct (parts !! "response") as [response|] eqn:H5; [| absent_part H5].
  destruct (parts !! "algorithm") as [algorithm|] eqn:H6; [| absent_part H6].
  destruct (parts !! "opaque") as [opaque|] eqn:H7; [| absent_part H7].
  destruct (parts !! "qop") as [qop|] eqn:H8; [| absent_part H8].
  destruct (parts !! "nc") as [nc|] eqn:H9; [| absent_part H9].
  destruct (parts !! "cnonce") as [cnonce|] eqn:H10; [| absent_part H10].
  rewrite check_required_forallb.
  cbn [forallb _REQUIRED_DIGEST_RESPONSE_PARTS]. unfold dict_contains.
  rewrite H1, H2, H3, H4, H5, H6, H7, H8, H9, H10.
  unfold dict_get.
  cbn [andb negb subscriptable Py.bind]. rewrite H9. cbn [Py.bind].
  rewrite nc_guard. destruct (hex_digits nc) eqn:Hnc; cbn [negb andb]; [| reflexivity].
  rewrite (int_16_hex_digits nc Hnc). cbn [Py.bind].
  unfold DigestResponse_new, kwarg, mbind, result_bind.
  rewrite H1, H2, H3, H4, H5, H6, H7, H8, H9, H10.
  cbn [Py.bind DigestResponse.algorithm DigestResponse.qop].
  destruct (str_in algorithm _AVAILABLE_HASH_FUNCS); cbn [negb andb]; [| reflexivity].
  now destruct (String.eqb "auth" qop).
Qed.

Lemma parse_digest_challenge_parts (authentication_header : string) :
  parse_digest_challenge authentication_header =
  Return (if is_digest_challenge authentication_header
          then parse_parts (drop 7 authentication_header)
                 {["algorithm" := "MD5"; "stale" := "false"]} ≫= challenge_of_parts
          else None).
Proof.
  unfold parse_digest_challenge.
  destruct (is_digest_challenge authentication_header); [| reflexivity].
  cbn [negb].
  destruct (parse_parts (drop 7 authentication_header) _) as [parts|]; [| reflexivity].
  unfold challenge_of_parts, mbind, option_bind, result_bind.
  destruct (parts !! "realm") as [realm|] eqn:H1; [| absent_part H1].
  destruct (parts !! "nonce") as [nonce|] eqn:H2; [| absent_part H2].
  destruct (parts !! "stale") as [stale|] eqn:H3; [| absent_part H3].
  destruct (parts !! "algorithm") as [algorithm|] eqn:H4; [| absent_part H4].
  destruct (parts !! "opaque") as [opaque|] eqn:H5; [| absent_part H5].
  destruct (parts !! "qop") as [qop|] eqn:H6; [| absent_part H6].
  rewrite check_required_forallb.
  cbn [forallb _REQUIRED_DIGEST_CHALLENGE_PARTS]. unfold dict_contains.
  rewrite H1, H2, H3, H4, H5, H6.
  unfold dict_get.
  cbn [andb negb subscriptable Py.bind]. rewrite H3. cbn [Py.bind].
  unfold DigestChallenge_new, kwarg, mbind, result_bind.
  rewrite H1, H2, H3, H4, H5, H6.
  cbn [Py.bind DigestChallenge.algorithm DigestChallenge.qop].
  destruct (str_in algorithm _AVAILABLE_HASH_FUNCS); cbn [negb andb]; [| reflexivity].
  now destruct (String.eqb "auth" qop).
Qed.

Lemma parse_digest_credentials_parts (authorization_header : string) :
  parse_digest_credentials authorization_header =
  Return (if is_digest_credential authorization_header
          then parse_parts (drop 7 authorization_header) {["algorithm" := "MD5"]}
                 ≫= response_of_parts
          else None).
Proof.
  unfold parse_digest_credentials.
  destruct (is_digest_credential authorization_header); [| reflexivity].
  apply parse_digest_response_parts.
Qed.

End parsing.

Section parsed_records.

Context {hashlib : Hashlib} {codec : Codec}.



Lemma response_of_parts_some (parts : gmap string string) (r : DigestResponse.t) :
  response_of_parts parts = Some r ->
  exists nc,
    parts !! "nc" = Some nc /\ hex_digits nc = true
    /\ DigestResponse.nc r = hex_value nc
    /\ parts !! "algorithm" = Some (DigestResponse.algorithm r)
    /\ str_in (DigestResponse.algorithm r) _AVAILABLE_HASH_FUNCS = true
    /\ parts !! "qop" = Some "auth"
    /\ (forall k, In k _REQUIRED_DIGEST_RESPONSE_PARTS -> is_Some (parts !! k)).
Proof.
  unfold response_of_parts, mbind, option_bind.
  destruct (parts !! "username") as [username|] eqn:H1; [| discriminate].
  destruct (parts !! "realm") as [realm|] eqn:H2; [| discriminate].
  destruct (parts !! "nonce") as [nonce|] eqn:H3; [| discriminate].
  destruct (parts !! "uri") as [uri|] eqn:H4; [| discriminate].
  destruct (parts !! "response") as [response|] eqn:H5; [| discriminate].
  destruct (parts !! "algorithm") as [algorithm|] eqn:H6; [| discriminate].
  destruct (parts !! "opaque") as [opaque|] eqn:H7; [| discriminate].
  destruct (parts !! "qop") as [qop|] eqn:H8; [| discriminate].
  destruct (parts !! "nc") as [nc|] eqn:H9; [| discriminate].
  destruct (parts !! "cnonce") as [cnonce|] eqn:H10; [| discriminate].
  destruct (hex_digits nc) eqn:Hnc; [| discriminate].
  destruct (str_in algorithm _AVAILABLE_HASH_FUNCS) eqn:Halg; [| discriminate].
  destruct (String.eqb_spec "auth" qop) as [<- | _]; [| discriminate].
  intros [= <-]. exists nc. cbn. repeat split; try assumption.
  intros k Hk. cbn in Hk.
  repeat (destruct Hk as [<- | Hk]; [eauto |]). destruct Hk.
Qed.

Lemma response_of_parts_well_formed (parts : gmap string string) :
  well_formed_response (Some parts) <-> is_Some (response_of_parts parts).
Proof.
  split.
  - intros (p & nc & algorithm & [= <-] & Hall & Hnc & Hhex & Hqop & Halg & Havail).
    unfold response_of_parts, mbind, option_bind.
    destruct (Hall "username") as [? ->]; [cbn; tauto |].
    destruct (Hall "realm") as [? ->]; [cbn; tauto |].
    destruct (Hall "nonce") as [? ->]; [cbn; tauto |].
    destruct (Hall "uri") as [? ->]; [cbn; tauto |].
    destruct (Hall "response") as [? ->]; [cbn; tauto |].
    rewrite Halg.
    destruct (Hall "opaque") as [? ->]; [cbn; tauto |].
    rewrite Hqop, Hnc.
    destruct (Hall "cnonce") as [? ->]; [cbn; tauto |].
    rewrite Hhex, Havail. cbn. eauto.
  - intros [r Hr]. destruct (response_of_parts_some parts r Hr)
      as (nc & Hnc & Hhex & _ & Halg & Havail & Hqop & Hall).
    exists parts, nc, (DigestResponse.algorithm r). tauto.
Qed.

Lemma challenge_of_parts_some (parts : gmap string string) (c : DigestChallenge.t) :
  challenge_of_parts parts = Some c ->
  parts !! "realm" = Some (DigestChallenge.realm c)
  /\ parts !! "nonce" = Some (DigestChallenge.nonce c)
  /\ parts !! "opaque" = Some (DigestChallenge.opaque c)
  /\ parts !! "algorithm" = Some (DigestChallenge.algorithm c)
  /\ str_in (DigestChallenge.algorithm c) _AVAILABLE_HASH_FUNCS = true
  /\ parts !! "qop" = Some "auth" /\ DigestChallenge.qop c = "auth"
  /\ (exists stale, parts !! "stale" = Some stale
                    /\ DigestChallenge.stale c = String.eqb (lower stale) "true")
  /\ (forall k, In k _REQUIRED_DIGEST_CHALLENGE_PARTS -> is_Some (parts !! k)).
Proof.
  unfold challenge_of_parts, mbind, option_bind.
  destruct (parts !! "realm") as [realm|] eqn:H1; [| discriminate].
  destruct (parts !! "nonce") as [nonce|] eqn:H2; [| discriminate].
  destruct (parts !! "stale") as [stale|] eqn:H3; [| discriminate].
  destruct (parts !! "algorithm") as [algorithm|] eqn:H4; [| discriminate].
  destruct (parts !! "opaque") as [opaque|] eqn:H5; [| discriminate].
  destruct (parts !! "qop") as [qop|] eqn:H6; [| discriminate].
  destruct (str_in algorithm _AVAILABLE_HASH_FUNCS) eqn:Halg; [| discriminate].
  destruct (String.eqb_spec "auth" qop) as [<- | _]; [| discriminate].
  intros [= <-]. cbn. repeat split; try assumption; eauto.
  intros k Hk. cbn in Hk.
  repeat (destruct Hk as [<- | Hk]; [eauto |]). destruct Hk.
Qed.

Lemma challenge_of_parts_well_formed (parts : gmap string string) :
  well_formed_challenge (Some parts) <-> is_Some (challenge_of_parts parts).
Proof.
  split.
  - intros (p & algorithm & [= <-] & Hall & Hqop & Halg & Havail).
    unfold challenge_of_parts, mbind, option_bind.
    destruct (Hall "realm") as [? ->]; [cbn; tauto |].
    destruct (Hall "nonce") as [? ->]; [cbn; tauto |].
    destruct (Hall "stale") as [? ->]; [cbn; tauto |].
    rewrite Halg.
    destruct (Hall "opaque") as [? ->]; [cbn; tauto |].
    rewrite Hqop, Havail. cbn. eauto.
  - intros [c Hc]. destruct (challenge_of_parts_some parts c Hc)
      as (_ & _ & _ & Halg & Havail & Hqop & _ & _ & Hall).
    exists parts, (DigestChallenge.algorithm c). tauto.
Qed.

Lemma bind_none_iff {A B : Type} (o : option A) (f : A -> option B) (wf : option A -> Prop) :
  (forall a, wf (Some a) <-> is_Some (f a)) -> ~ wf None ->
  (o ≫= f = None <-> ~ wf o).
Proof.
  intros Hwf Hnone. destruct o as [a|]; cbn.
  - rewrite Hwf. split.
    + intros -> [? [=]].
    + intros Hn. destruct (f a); [exfalso; eauto | reflexivity].
  - tauto.
Qed.

Lemma parse_digest_response_none (digest_response_string : string) :
  parse_digest_response digest_response_string = Return None <->
  ~ well_formed_response (parse_parts digest_response_string {["algorithm" := "MD5"]}).
Proof.
  rewrite parse_digest_response_parts.
  assert (~ well_formed_response None) as Hnone by (intros (? & ? & ? & [=] & _)).
  pose proof (bind_none_iff (parse_parts digest_response_string {["algorithm" := "MD5"]})
                response_of_parts well_formed_response
                response_of_parts_well_formed Hnone) as Hiff.
  split.
  - intros [= Hn]. now apply Hiff.
  - intros Hn. f_equal. now apply Hiff.
Qed.

Lemma parse_digest_challenge_none (header : string) :
  is_digest_challenge header = true ->
  (parse_digest_challenge header = Return None <->
   ~ well_formed_challenge
       (parse_parts (drop 7 header) {["algorithm" := "MD5"; "stale" := "false"]})).
Proof.
  intros Hd. rewrite parse_digest_challenge_parts, Hd.
  assert (~ well_formed_challenge None) as Hnone by (intros (? & ? & [=] & _)).
  pose proof (bind_none_iff
                (parse_parts (drop 7 header) {["algorithm" := "MD5"; "stale" := "false"]})
                challenge_of_parts well_formed_challenge
                challenge_of_parts_well_formed Hnone) as Hiff.
  split.
  - intros [= Hn]. now apply Hiff.
  - intros Hn. f_equal. now apply Hiff.
Qed.

End parsed_records.

Section parsing_claims.

Context {hashlib : Hashlib} {codec : Codec}.

Lemma sha1_unavailable : str_in "SHA-1" _AVAILABLE_HASH_FUNCS = false.
Proof. unfold _AVAILABLE_HASH_FUNCS. now destruct sha512_256. Qed.

(** C3: a header whose algorithm part names an algorithm outside the
    available ones, [SHA-1] say, parses to no result, as a challenge and as a
    credential; [calculate_partial_digest] with a name that [get_hash_func]
    does not recognise, [SHA-1] say, returns what it returns for [MD5]. *)
Theorem unsupported_algorithm (header algorithm : string) :
  str_in algorithm _AVAILABLE_HASH_FUNCS = false ->
  (part (parse_parts (drop 7 header) {["algorithm" := "MD5"; "stale" := "false"]})
     "algorithm" = Some algorithm ->
   parse_digest_challenge header = Return None)
  /\ (part (parse_parts header {["algorithm" := "MD5"]}) "algorithm" = Some algorithm ->
      parse_digest_response header = Return None)
  /\ (part (parse_parts (drop 7 header) {["algorithm" := "MD5"]}) "algorithm"
      = Some algorithm ->
      parse_digest_credentials header = Return None)
  /\ str_in "SHA-1" _AVAILABLE_HASH_FUNCS = false
  /\ (forall name username realm password,
        String.eqb name "SHA-256" = false -> String.eqb name "SHA-512-256" = false ->
        String.eqb name "SHA-512" = false ->
        calculate_partial_digest username realm password name =
        calculate_partial_digest username realm password "MD5"
        /\ calculate_partial_digest username realm password name =
           Return (md5 (encode_utf8 username +:+ ":" +:+ encode_utf8 realm +:+ ":"
                          +:+ encode_utf8 password)))
  /\ (forall username realm password,
        calculate_partial_digest username realm password "SHA-1" =
        calculate_partial_digest username realm password "MD5").
Proof.
  intros Hun.
  assert (forall name username realm password,
            String.eqb name "SHA-256" = false -> String.eqb name "SHA-512-256" = false ->
            String.eqb name "SHA-512" = false ->
            calculate_partial_digest username realm password name =
            Return (md5 (encode_utf8 username +:+ ":" +:+ encode_utf8 realm +:+ ":"
                           +:+ encode_utf8 password))) as Hmd5.
  { intros name username realm password H256 H512256 H512.
    unfold calculate_partial_digest, get_hash_func. now rewrite H256, H512256, H512. }
  assert (forall parsed, part parsed "algorithm" = Some algorithm ->
                         parsed ≫= challenge_of_parts = None) as Hc.
  { intros [parts|] Halg; [| discriminate]. cbn in Halg. cbn [mbind option_bind].
    destruct (challenge_of_parts parts) as [c|] eqn:Hc; [| reflexivity].
    apply challenge_of_parts_some in Hc as (_ & _ & _ & Ha & Hav & _).
    congruence. }
  assert (forall parsed, part parsed "algorithm" = Some algorithm ->
                         parsed ≫= response_of_parts = None) as Hr.
  { intros [parts|] Halg; [| discriminate]. cbn in Halg. cbn [mbind option_bind].
    destruct (response_of_parts parts) as [r|] eqn:Hr; [| reflexivity].
    apply response_of_parts_some in Hr as (nc & _ & _ & _ & Ha & Hav & _).
    congruence. }
  split; [| split; [| split; [| split; [| split]]]].
  - intros Hp. rewrite parse_digest_challenge_parts, (Hc _ Hp).
    now destruct (is_digest_challenge header).
  - intros Hp. now rewrite parse_digest_response_parts, (Hr _ Hp).
  - intros Hp. rewrite parse_digest_credentials_parts, (Hr _ Hp).
    now destruct (is_digest_credential header).
  - apply sha1_unavailable.
  - intros name username realm password H256 H512256 H512.
    rewrite (Hmd5 name) by assumption. now rewrite (Hmd5 "MD5") by reflexivity.
  - intros username realm password.
    rewrite (Hmd5 "SHA-1") by reflexivity. now rewrite (Hmd5 "MD5") by reflexivity.
Qed.

(** C8, amended: with the other parts in order, a credential is accepted
    exactly when its [nc] is one or more hexadecimal digits, however many; an
    [nc] that is empty or holds another character yields no result; the
    record's [nc] is the number the digits denote in base 16. *)
Theorem parse_digest_response_nc (digest_response_string nc : string) :
  let parsed := parse_parts digest_response_string {["algorithm" := "MD5"]} in
  part parsed "nc" = Some nc ->
  (hex_digits nc = false -> parse_digest_response digest_response_string = Return None)
  /\ (forall r, parse_digest_response digest_response_string = Return (Some r) ->
                hex_digits nc = true /\ DigestResponse.nc r = hex_value nc)
  /\ (hex_digits nc = true ->
      (forall k, In k _REQUIRED_DIGEST_RESPONSE_PARTS -> is_Some (part parsed k)) ->
      part parsed "qop" = Some "auth" ->
      (exists algorithm, part parsed "algorithm" = Some algorithm
                         /\ str_in algorithm _AVAILABLE_HASH_FUNCS = true) ->
      exists r, parse_digest_response digest_response_string = Return (Some r)
                /\ DigestResponse.nc r = hex_value nc).
Proof.
  intros parsed Hnc. rewrite parse_digest_response_parts. fold parsed.
  destruct parsed as [parts|]; [| discriminate]. cbn [part mbind option_bind] in *.
  assert (forall r, response_of_parts parts = Some r ->
                    hex_digits nc = true /\ DigestResponse.nc r = hex_value nc) as Hsome.
  { intros r Hr. apply response_of_parts_some in Hr as (nc' & Hnc' & Hhex & Hval & _).
    rewrite Hnc in Hnc'. injection Hnc' as <-. now split. }
  split; [| split].
  - intros Hbad. destruct (response_of_parts parts) as [r|] eqn:Hr; [| reflexivity].
    destruct (Hsome r eq_refl). congruence.
  - intros r [= Hr]. now apply Hsome.
  - intros Hhex Hall Hqop (algorithm & Halg & Hav).
    destruct (proj1 (response_of_parts_well_formed parts)) as [r Hr].
    { exists parts, nc, algorithm. tauto. }
    exists r. rewrite Hr. split; [reflexivity | now apply Hsome].
Qed.

(** C5, amended: the three parsers never raise, and return no result
    exactly when the parameter list is malformed: it does not parse, lacks a
    required part, has an [nc] that is no hexadecimal number, a [qop] other
    than [auth] or an algorithm that is not available (or, for the two that
    test the scheme, the header is of another scheme).
    [build_authorization_request], given a non-empty challenge header that
    parses to no result, raises [Exception]. *)
Theorem malformed_input_is_absent (header : string) :
  (exists r, parse_digest_response header = Return r)
  /\ (exists r, parse_digest_credentials header = Return r)
  /\ (exists c, parse_digest_challenge header = Return c)
  /\ (parse_digest_response header = Return None <->
      ~ well_formed_response (parse_parts header {["algorithm" := "MD5"]}))
  /\ (parse_digest_credentials header = Return None <->
      ~ (is_digest_credential header = true
         /\ well_formed_response (parse_parts (drop 7 header) {["algorithm" := "MD5"]})))
  /\ (parse_digest_challenge header = Return None <->
      ~ (is_digest_challenge header = true
         /\ well_formed_challenge
              (parse_parts (drop 7 header)
                 {["algorithm" := "MD5"; "stale" := "false"]})))
  /\ (nonempty header = true -> parse_digest_challenge header = Return None ->
      forall username method uri nonce_count realm nonce opaque password request_digest
             client_nonce algorithm g,
      exists msg,
        fst (build_authorization_request username method uri nonce_count
               (Some (ChallengeHeader header)) realm nonce opaque password request_digest
               client_nonce algorithm g) = Raise (Exception msg)).
Proof.
  split; [rewrite parse_digest_response_parts; eauto |].
  split; [rewrite parse_digest_credentials_parts; eauto |].
  split; [rewrite parse_digest_challenge_parts; eauto |].
  split; [apply parse_digest_response_none |].
  split; [| split].
  - unfold parse_digest_credentials.
    destruct (is_digest_credential header); cbn [negb].
    + rewrite parse_digest_response_none. tauto.
    + split; [intros _ [[=] _] | reflexivity].
  - destruct (is_digest_challenge header) eqn:Hd.
    + rewrite (parse_digest_challenge_none header Hd). tauto.
    + rewrite parse_digest_challenge_parts, Hd. split; [intros _ [[=] _] | reflexivity].
  - intros Hne Hnone username method uri nonce_count realm nonce opaque password
      request_digest client_nonce algorithm g.
    unfold build_authorization_request.
    destruct (match client_nonce with
              | Some c => if nonempty c then (c, g) else choices hex_alphabet 32 g
              | None => choices hex_alphabet 32 g
              end) as [cn g'].
    cbn [fst challenge_truthy]. rewrite Hne, Hnone. cbn [andb].
    unfold raise_if, mbind, result_bind.
    destruct (truthy realm || truthy nonce || truthy opaque || truthy algorithm);
      cbn; eauto.
Qed.

End parsing_claims.





Lemma unsupported_algorithm_witness :
  @parse_digest_challenge demo_hashlib spec_codec (sample_challenge "SHA-1") = Return None.
Proof.
  apply (proj1 (@unsupported_algorithm demo_hashlib spec_codec (sample_challenge "SHA-1")
                  "SHA-1" eq_refl)).
  vm_compute. reflexivity.
Defined.

Lemma parse_digest_response_nc_witness :
  exists r,
    @parse_digest_response demo_hashlib spec_codec (sample_credentials "0000000a")
    = Return (Some r) /\ DigestResponse.nc r = hex_value "0000000a".
Proof.
  apply (@parse_digest_response_nc demo_hashlib spec_codec
           (sample_credentials "0000000a") "0000000a").
  - vm_compute. reflexivity.
  - reflexivity.
  - intros k Hk. cbn in Hk.
    repeat (destruct Hk as [<- | Hk]; [vm_compute; eauto |]). destruct Hk.
  - vm_compute. reflexivity.
  - exists "MD5". split; vm_compute; reflexivity.
Defined.

(** An [nc] of nine digits is accepted. *)
Lemma parse_digest_response_nc_nine_digits :
  exists r,
    @parse_digest_response demo_hashlib spec_codec (sample_credentials "123456789")
    = Return (Some r) /\ DigestResponse.nc r = 4886718345.
Proof. eexists. split; vm_compute; reflexivity. Qed.

Lemma malformed_input_is_absent_witness :
  exists msg,
    fst (@build_authorization_request demo_hashlib spec_codec "Mufasa" "GET"
           "/dir/index.html" 1 (Some (ChallengeHeader (sample_challenge "SHA-1")))
           None None None (Some "Circle Of Life") None None None (fun i => i))
    = Raise (Exception msg).
Proof.
  apply (proj2 (proj2 (proj2 (proj2 (proj2 (proj2
           (@malformed_input_is_absent demo_hashlib spec_codec
              (sample_challenge "SHA-1")))))))).
  - reflexivity.
  - vm_compute. reflexivity.
Defined.

(** Given a header of another scheme, [build_authorization_request] raises. *)
Lemma build_authorization_request_unparsable :
  fst (@build_authorization_request demo_hashlib spec_codec "Mufasa" "GET"
         "/dir/index.html" 1 (Some (ChallengeHeader "Basic QWxhZGRpbjpvcGVuIHNlc2FtZQ=="))
         None None None (Some "Circle Of Life") None None None (fun i => i))
  = Raise (Exception
      ("The provided digest challenge header could not be parsed: "
       +:+ "Basic QWxhZGRpbjpvcGVuIHNlc2FtZQ==")).
Proof. vm_compute. reflexivity. Qed.

(** ** Challenges built and parsed back *)

Section challenge_claim.

Context {hashlib : Hashlib} {codec : Codec}.



End challenge_claim.



(** * Further properties of the module *)

(** ** Partial digests *)

Section partial_digest.

Context {hashlib : Hashlib}.

(** For a supported algorithm [calculate_partial_digest] returns that
    algorithm's digest of the UTF-8 bytes of [username:realm:password]; for
    [SHA-512-256] on a provider without the primitive it raises
    [ValueError]. *)
Theorem calculate_partial_digest_supported (username realm password algorithm : string)
    (hash : string -> string) :
  (supported_hash algorithm = Some hash ->
   calculate_partial_digest username realm password algorithm =
   Return (hash (encode_utf8 username +:+ ":" +:+ encode_utf8 realm +:+ ":"
                   +:+ encode_utf8 password)))
  /\ (sha512_256 = None ->
      calculate_partial_digest username realm password "SHA-512-256" =
      Raise (ValueError "unsupported hash type sha512_256")).
Proof.
  split.
  - intros Hs. unfold calculate_partial_digest.
    now rewrite (get_hash_func_supported _ _ Hs).
  - intros Hnone. unfold calculate_partial_digest, get_hash_func.
    cbn [String.eqb Ascii.eqb Bool.eqb]. now rewrite Hnone.
Qed.

End partial_digest.

Lemma calculate_partial_digest_supported_witness :
  @calculate_partial_digest demo_hashlib "Mufasa" "testrealm@host.com" "Circle Of Life"
    "SHA-256" =
  Return (demo_digest 256 ("Mufasa:testrealm@host.com:Circle Of Life")).
Proof.
  apply (proj1 (@calculate_partial_digest_supported demo_hashlib "Mufasa"
                  "testrealm@host.com" "Circle Of Life" "SHA-256" (demo_digest 256))).
  reflexivity.
Defined.

(** ** The signature of a nonce *)

Lemma split_length (sep : ascii) (s : string) (m : nat) :
  List.length (split sep s m) = Nat.min (S m) (S (count_char sep s)).
Proof.
  revert m. induction s as [|x s IH]; intros m.
  - destruct m; reflexivity.
  - destruct m as [|m]; [reflexivity |].
    cbn [split count_char]. destruct (Ascii.eqb x sep).
    + cbn [List.length]. rewrite IH. cbn [Nat.add]. lia.
    + specialize (IH (S m)). destruct (split sep s (S m)) as [|piece pieces].
      * cbn [List.length] in *. lia.
      * cbn [List.length Nat.add] in *. lia.
Qed.

Lemma choices_advance (seq : string) (n : nat) (g : Rng) :
  snd (choices seq n g) = advance n g.
Proof.
  revert g. induction n as [|n IH]; intros g; [reflexivity |].
  cbn [choices]. unfold choice.
  specialize (IH (fun i => g (S i))).
  destruct (choices seq n (fun i => g (S i))) as [s g2]. cbn [snd] in *.
  now subst g2.
Qed.

Lemma eqb_nonce (timestamp salt a b : string) :
  String.eqb (timestamp +:+ ":" +:+ salt +:+ ":" +:+ a)
    (timestamp +:+ ":" +:+ salt +:+ ":" +:+ b) = String.eqb a b.
Proof.
  change (timestamp +:+ ":" +:+ salt +:+ ":" +:+ ?m)
    with (timestamp +:+ String ":" (salt +:+ String ":" m)).
  rewrite eqb_app_prefix. cbn [String.eqb]. rewrite Ascii.eqb_refl.
  rewrite eqb_app_prefix. cbn [String.eqb]. now rewrite Ascii.eqb_refl.
Qed.

Section nonce_signature.

Context {hashlib : Hashlib}.

(** A nonce [timestamp:salt:signature] with a non-empty salt, and no colon
    in timestamp or salt, validates exactly when the signature is the MD5
    digest of [timestamp:salt:secret]; no random draw is made. *)
Theorem validate_nonce_signature (timestamp salt signature secret : string) (g : Rng) :
  lacks ":" timestamp = true -> lacks ":" salt = true -> nonempty salt = true ->
  validate_nonce (timestamp +:+ ":" +:+ salt +:+ ":" +:+ signature) secret g =
  (String.eqb signature
     (md5 (encode_utf8 (timestamp +:+ ":" +:+ salt +:+ ":" +:+ secret))), g).
Proof.
  intros Hts Hsalt Hne. unfold validate_nonce.
  rewrite split_nonce by assumption.
  rewrite calculate_nonce_salted by assumption.
  rewrite eqb_nonce. now destruct (String.eqb signature _).
Qed.

(** A nonce with fewer than two colons is rejected, without a random draw,
    and has no timestamp. *)
Theorem nonce_with_few_colons {F : Type} (float : string -> option F)
    (nonce secret : string) (g : Rng) :
  (count_char ":" nonce < 2)%nat ->
  validate_nonce nonce secret g = (false, g)
  /\ get_nonce_timestamp float nonce = None.
Proof.
  intros Hcount. pose proof (split_length ":" nonce 2) as Hlen.
  unfold validate_nonce, get_nonce_timestamp.
  destruct (split ":" nonce 2) as [|t [|s [|sig [|extra pieces]]]];
    try (split; reflexivity);
    cbn [List.length] in Hlen; lia.
Qed.

(** Without a salt, or with an empty one, [calculate_nonce] draws four
    characters of [0123456789ABCDEF] as the salt, returns
    [timestamp:salt:MD5(timestamp:salt:secret)] and leaves the generator
    four draws on; with a non-empty salt it draws nothing. *)
Theorem calculate_nonce_shape (timestamp secret : string) (salt : option string)
    (g : Rng) :
  (truthy salt = false ->
   exists drawn,
     String.length drawn = 4%nat
     /\ str_all (fun c => char_in c hex_alphabet) drawn = true
     /\ calculate_nonce timestamp secret salt g =
        (timestamp +:+ ":" +:+ drawn +:+ ":"
           +:+ md5 (encode_utf8 (timestamp +:+ ":" +:+ drawn +:+ ":" +:+ secret)),
         advance 4 g))
  /\ (forall given_salt, salt = Some given_salt -> nonempty given_salt = true ->
      calculate_nonce timestamp secret salt g =
      (timestamp +:+ ":" +:+ given_salt +:+ ":"
         +:+ md5 (encode_utf8 (timestamp +:+ ":" +:+ given_salt +:+ ":" +:+ secret)),
       g)).
Proof.
  split.
  - intros Hsalt. exists (fst (choices hex_alphabet 4 g)).
    destruct (choices_alphabet 4 g) as [Hall Hlen].
    split; [exact Hlen |]. split; [exact Hall |].
    unfold calculate_nonce.
    assert (match salt with
            | Some s0 => if nonempty s0 then (s0, g) else choices hex_alphabet 4 g
            | None => choices hex_alphabet 4 g
            end = choices hex_alphabet 4 g) as ->.
    { destruct salt as [s0|]; [| reflexivity]. cbn in Hsalt. now rewrite Hsalt. }
    pose proof (choices_advance hex_alphabet 4 g) as Hadv.
    destruct (choices hex_alphabet 4 g) as [drawn g']. cbn [fst snd] in *.
    now subst g'.
  - intros given_salt -> Hne. now apply calculate_nonce_salted.
Qed.

(** A nonce made for one secret validates under another exactly when the
    two signatures coincide. *)
Theorem validate_nonce_other_secret (timestamp secret other : string) (g g' : Rng) :
  lacks ":" timestamp = true ->
  exists salt,
    fst (calculate_nonce timestamp secret None g) =
    timestamp +:+ ":" +:+ salt +:+ ":"
      +:+ md5 (encode_utf8 (timestamp +:+ ":" +:+ salt +:+ ":" +:+ secret))
    /\ (fst (validate_nonce (fst (calculate_nonce timestamp secret None g)) other g')
        = true
        <-> md5 (encode_utf8 (timestamp +:+ ":" +:+ salt +:+ ":" +:+ secret)) =
            md5 (encode_utf8 (timestamp +:+ ":" +:+ salt +:+ ":" +:+ other))).
Proof.
  intros Hts.
  destruct (calculate_nonce_unsalted timestamp secret None g eq_refl)
    as (c & s & _ & Hsalt & ->).
  exists (String c s). split; [reflexivity |].
  unfold validate_nonce. rewrite split_nonce by assumption.
  rewrite calculate_nonce_salted by reflexivity. rewrite eqb_nonce.
  destruct (String.eqb_spec
              (md5 (encode_utf8 (timestamp +:+ ":" +:+ String c s +:+ ":" +:+ secret)))
              (md5 (encode_utf8 (timestamp +:+ ":" +:+ String c s +:+ ":" +:+ other))))
    as [Heq | Hne]; cbn [negb fst]; [tauto |].
  split; [discriminate | intros Heq; now contradiction Hne].
Qed.

End nonce_signature.

Lemma validate_nonce_signature_witness :
  @validate_nonce demo_hashlib
    ("1263312775.17" +:+ ":" +:+ "7A42" +:+ ":" +:+ "0d4ae8b2") "secret" (fun i => i)
  = (String.eqb "0d4ae8b2"
       (demo_digest 5 (encode_utf8 ("1263312775.17" +:+ ":" +:+ "7A42" +:+ ":"
                                      +:+ "secret"))),
     fun i => i).
Proof.
  apply (@validate_nonce_signature demo_hashlib "1263312775.17" "7A42" "0d4ae8b2"
           "secret" (fun i => i)); reflexivity.
Defined.

Lemma nonce_with_few_colons_witness :
  @validate_nonce demo_hashlib "1263312775.17:7A42" "secret" (fun i => i)
  = (false, fun i => i)
  /\ get_nonce_timestamp Some "1263312775.17:7A42" = None.
Proof.
  apply (@nonce_with_few_colons demo_hashlib string Some "1263312775.17:7A42" "secret"
           (fun i => i)).
  cbn. lia.
Defined.

Lemma calculate_nonce_shape_witness :
  exists drawn,
    String.length drawn = 4%nat
    /\ str_all (fun c => char_in c hex_alphabet) drawn = true
    /\ @calculate_nonce demo_hashlib "1263312775.17" "secret" (Some EmptyString)
         (fun i => i) =
       ("1263312775.17" +:+ ":" +:+ drawn +:+ ":"
          +:+ demo_digest 5 (encode_utf8 ("1263312775.17" +:+ ":" +:+ drawn +:+ ":"
                                            +:+ "secret")),
        advance 4 (fun i => i)).
Proof.
  apply (proj1 (@calculate_nonce_shape demo_hashlib "1263312775.17" "secret"
                  (Some EmptyString) (fun i => i))).
  reflexivity.
Defined.

Lemma validate_nonce_other_secret_witness :
  exists salt,
    fst (@calculate_nonce demo_hashlib "1263312775.17" "secret" None (fun i => i)) =
    "1263312775.17" +:+ ":" +:+ salt +:+ ":"
      +:+ demo_digest 5 (encode_utf8 ("1263312775.17" +:+ ":" +:+ salt +:+ ":"
                                        +:+ "secret"))
    /\ (fst (@validate_nonce demo_hashlib
               (fst (@calculate_nonce demo_hashlib "1263312775.17" "secret" None
                       (fun i => i))) "other" (fun i => i)) = true
        <-> demo_digest 5 (encode_utf8 ("1263312775.17" +:+ ":" +:+ salt +:+ ":"
                                          +:+ "secret")) =
            demo_digest 5 (encode_utf8 ("1263312775.17" +:+ ":" +:+ salt +:+ ":"
                                          +:+ "other"))).
Proof.
  apply (@validate_nonce_other_secret demo_hashlib "1263312775.17" "secret" "other"
           (fun i => i) (fun i => i)).
  reflexivity.
Defined.

(** ** Nonce counts written and read *)

Lemma hex_fold_zeros (k : nat) (s : string) : hex_fold 0 (zeros k +:+ s) = hex_fold 0 s.
Proof. induction k as [|k IH]; [reflexivity | exact IH]. Qed.

Lemma zeros_length (k : nat) : String.length (zeros k) = k.
Proof. induction k as [|k IH]; [reflexivity | cbn; now rewrite IH]. Qed.

Lemma zeros_lower (k : nat) : str_all is_lower_hex (zeros k) = true.
Proof. induction k as [|k IH]; [reflexivity | exact IH]. Qed.

Lemma to_hex_fuel_read (fuel : nat) (n : Z) :
  0 <= n < 16 ^ Z.of_nat fuel -> (0 < fuel)%nat ->
  hex_fold 0 (to_hex_fuel fuel n) = Some n
  /\ str_all is_lower_hex (to_hex_fuel fuel n) = true
  /\ nonempty (to_hex_fuel fuel n) = true.
Proof.
  revert n. induction fuel as [|fuel IH]; intros n Hn Hf; [lia |].
  cbn [to_hex_fuel]. destruct (n <? 16) eqn:Hlt.
  - apply Z.ltb_lt in Hlt. cbn [hex_fold str_all nonempty].
    rewrite hex_val_digit, hex_digit_lower by lia.
    split; [f_equal; lia | split; reflexivity].
  - apply Z.ltb_ge in Hlt.
    rewrite Nat2Z.inj_succ, Z.pow_succ_r in Hn by lia.
    destruct fuel as [|fuel]; [simpl in Hn; lia |].
    destruct (IH (n / 16)) as (Hread & Hlower & Hne); [| lia |].
    { split; [apply Z.div_pos; lia | apply Z.div_lt_upper_bound; lia]. }
    rewrite hex_fold_app, Hread, str_all_app, Hlower. cbn [hex_fold str_all andb].
    rewrite hex_val_digit, hex_digit_lower by (apply Z.mod_pos_bound; lia).
    split; [| split; [reflexivity |]].
    + f_equal. pose proof (Z.div_mod n 16). lia.
    + destruct (to_hex_fuel (S fuel) (n / 16)); [discriminate | reflexivity].
Qed.

Lemma lower_hex_is_hex (c : ascii) : is_lower_hex c = true -> is_hex_char c = true.
Proof. each_char c; intros H; try reflexivity; discriminate H. Qed.

Lemma hex_value_fold (s : string) (n : Z) :
  str_all is_hex_char s = true -> hex_fold 0 s = Some n -> hex_value s = n.
Proof.
  intros Hall Hfold. rewrite (hex_fold_value s 0 Hall) in Hfold.
  now injection Hfold.
Qed.

Lemma format_08x_nonneg (n : Z) :
  0 <= n ->
  hex_digits (format_08x n) = true /\ hex_value (format_08x n) = n
  /\ (8 <= String.length (format_08x n))%nat.
Proof.
  intros Hn. unfold format_08x.
  destruct (n <? 0) eqn:Hneg; [apply Z.ltb_lt in Hneg; lia |].
  unfold to_hex, zero_pad.
  destruct (to_hex_fuel_read (S (Z.to_nat (Z.log2 n))) n)
    as (Hread & Hlower & Hne); [| lia |].
  { split; [lia | now apply to_hex_fuel_enough]. }
  set (digits := to_hex_fuel (S (Z.to_nat (Z.log2 n))) n) in *.
  assert (str_all is_hex_char (zeros (8 - String.length digits) +:+ digits) = true)
    as Hall.
  { apply (str_all_impl is_lower_hex); [apply lower_hex_is_hex |].
    now rewrite str_all_app, zeros_lower, Hlower. }
  assert (hex_fold 0 (zeros (8 - String.length digits) +:+ digits) = Some n)
    as Hfold by now rewrite hex_fold_zeros.
  split; [| split].
  - unfold hex_digits. rewrite Hall, andb_true_r.
    destruct (8 - String.length digits)%nat; [exact Hne | reflexivity].
  - now apply hex_value_fold.
  - rewrite length_app_str, zeros_length. lia.
Qed.

(** [parse_digest_response] reads back every count that ["%08x"] wrote:
    the text of a count that is not negative has at least eight characters,
    passes the test of line 224 and denotes the count; the text of a negative
    count starts with a minus sign and fails the test. *)
Theorem format_08x_read_back (nonce_count : Z) :
  (0 <= nonce_count ->
   hex_digits (format_08x nonce_count) = true
   /\ int_16 (format_08x nonce_count) = Return nonce_count
   /\ hex_value (format_08x nonce_count) = nonce_count
   /\ (8 <= String.length (format_08x nonce_count))%nat)
  /\ (nonce_count < 0 -> hex_digits (format_08x nonce_count) = false).
Proof.
  split.
  - intros Hn. destruct (format_08x_nonneg nonce_count Hn) as (Hhex & Hval & Hlen).
    split; [exact Hhex |]. split; [| now split].
    rewrite (int_16_hex_digits _ Hhex). now rewrite Hval.
  - intros Hn. unfold format_08x. apply Z.ltb_lt in Hn. now rewrite Hn.
Qed.

Lemma format_08x_read_back_witness :
  hex_digits (format_08x 68719476736) = true
  /\ int_16 (format_08x 68719476736) = Return 68719476736
  /\ hex_value (format_08x 68719476736) = 68719476736
  /\ (8 <= String.length (format_08x 68719476736))%nat.
Proof. apply (proj1 (format_08x_read_back 68719476736)). lia. Defined.

(** ** What a parsed record holds *)

(** [_check_required_parts] is false for [None], and for a mapping it is
    true exactly when every required name is a key of the mapping. *)
Theorem check_required_parts_keys (parts : gmap string string)
    (required_parts : list string) :
  _check_required_parts None required_parts = false
  /\ (_check_required_parts (Some parts) required_parts = true <->
      forall k, In k required_parts -> is_Some (parts !! k)).
Proof. split; [reflexivity | apply check_required_lookup]. Qed.

Section parsed_fields.

Context {hashlib : Hashlib} {codec : Codec}.

Lemma response_of_parts_fields (parts : gmap string string) (r : DigestResponse.t) :
  response_of_parts parts = Some r ->
  parts !! "username" = Some (DigestResponse.username r)
  /\ parts !! "realm" = Some (DigestResponse.realm r)
  /\ parts !! "nonce" = Some (DigestResponse.nonce r)
  /\ parts !! "uri" = Some (DigestResponse.uri r)
  /\ parts !! "response" = Some (DigestResponse.response r)
  /\ parts !! "opaque" = Some (DigestResponse.opaque r)
  /\ parts !! "cnonce" = Some (DigestResponse.cnonce r)
  /\ DigestResponse.qop r = "auth".
Proof.
  unfold response_of_parts, mbind, option_bind.
  destruct (parts !! "username") as [username|]; [| discriminate].
  destruct (parts !! "realm") as [realm|]; [| discriminate].
  destruct (parts !! "nonce") as [nonce|]; [| discriminate].
  destruct (parts !! "uri") as [uri|]; [| discriminate].
  destruct (parts !! "response") as [response|]; [| discriminate].
  destruct (parts !! "algorithm") as [algorithm|]; [| discriminate].
  destruct (parts !! "opaque") as [opaque|]; [| discriminate].
  destruct (parts !! "qop") as [qop|]; [| discriminate].
  destruct (parts !! "nc") as [nc|]; [| discriminate].
  destruct (parts !! "cnonce") as [cnonce|]; [| discriminate].
  destruct (hex_digits nc && str_in algorithm _AVAILABLE_HASH_FUNCS); [| discriminate].
  destruct (String.eqb_spec "auth" qop) as [<- | _]; [| discriminate].
  intros [= <-]. cbn. repeat split.
Qed.

(** A credential that [parse_digest_response] returns holds, field by
    field, the parts of those names; its [nc] is the number that the [nc]
    part, a digit string, denotes; its [qop] is [auth] and its algorithm is
    an available one.  [parse_digest_credentials] returns a credential only
    for a header of the Digest scheme, and then the one that
    [parse_digest_response] returns for the header without its first seven
    characters. *)
Theorem parse_digest_response_fields (header : string) (r : DigestResponse.t) :
  (parse_digest_response header = Return (Some r) ->
   let parsed := parse_parts header {["algorithm" := "MD5"]} in
   part parsed "username" = Some (DigestResponse.username r)
   /\ part parsed "realm" = Some (DigestResponse.realm r)
   /\ part parsed "nonce" = Some (DigestResponse.nonce r)
   /\ part parsed "uri" = Some (DigestResponse.uri r)
   /\ part parsed "response" = Some (DigestResponse.response r)
   /\ part parsed "opaque" = Some (DigestResponse.opaque r)
   /\ part parsed "cnonce" = Some (DigestResponse.cnonce r)
   /\ part parsed "algorithm" = Some (DigestResponse.algorithm r)
   /\ str_in (DigestResponse.algorithm r) _AVAILABLE_HASH_FUNCS = true
   /\ DigestResponse.qop r = "auth"
   /\ exists nc, part parsed "nc" = Some nc /\ hex_digits nc = true
                 /\ DigestResponse.nc r = hex_value nc)
  /\ (parse_digest_credentials header = Return (Some r) ->
      is_digest_credential header = true
      /\ parse_digest_response (drop 7 header) = Return (Some r)).
Proof.
  split.
  - rewrite parse_digest_response_parts. intros Hr parsed. subst parsed.
    destruct (parse_parts header _) as [parts|]; [| discriminate Hr].
    injection Hr as Hr. cbn [mbind option_bind part] in *.
    destruct (response_of_parts_fields parts r Hr)
      as (H1 & H2 & H3 & H4 & H5 & H6 & H7 & H8).
    destruct (response_of_parts_some parts r Hr)
      as (nc & Hnc & Hhex & Hval & Halg & Hav & _).
    repeat (split; [assumption |]). eauto.
  - unfold parse_digest_credentials. intros Hr.
    destruct (is_digest_credential header); cbn [negb] in Hr;
      [now split | discriminate Hr].
Qed.

(** A challenge that [parse_digest_challenge] returns comes from a header of
    the Digest scheme and holds the parts of its fields' names; [stale] is
    true exactly when the stale part is [true] in any case of its letters;
    [qop] is [auth] and the algorithm is an available one. *)
Theorem parse_digest_challenge_fields (header : string) (c : DigestChallenge.t) :
  parse_digest_challenge header = Return (Some c) ->
  let parsed :=
    parse_parts (drop 7 header) {["algorithm" := "MD5"; "stale" := "false"]} in
  is_digest_challenge header = true
  /\ part parsed "realm" = Some (DigestChallenge.realm c)
  /\ part parsed "nonce" = Some (DigestChallenge.nonce c)
  /\ part parsed "opaque" = Some (DigestChallenge.opaque c)
  /\ part parsed "algorithm" = Some (DigestChallenge.algorithm c)
  /\ str_in (DigestChallenge.algorithm c) _AVAILABLE_HASH_FUNCS = true
  /\ DigestChallenge.qop c = "auth"
  /\ exists stale, part parsed "stale" = Some stale
                   /\ DigestChallenge.stale c = String.eqb (lower stale) "true".
Proof.
  rewrite parse_digest_challenge_parts. intros Hc parsed. subst parsed.
  destruct (is_digest_challenge header); [| discriminate Hc].
  destruct (parse_parts (drop 7 header) _) as [parts|]; [| discriminate Hc].
  injection Hc as Hc. cbn [mbind option_bind part] in *.
  destruct (challenge_of_parts_some parts c Hc)
    as (H1 & H2 & H3 & H4 & H5 & _ & H6 & H7 & _).
  repeat (split; [assumption || reflexivity |]). exact H7.
Qed.

(** The request digest of a parsed credential is always computed: for a
    credential that [parse_digest_response] returned,
    [calculate_request_digest] does not raise and returns the digest of the
    credential's fields under the credential's algorithm. *)
Theorem parsed_response_request_digest (header method partial_digest : string)
    (r : DigestResponse.t) :
  parse_digest_response header = Return (Some r) ->
  exists hash,
    supported_hash (DigestResponse.algorithm r) = Some hash
    /\ calculate_request_digest method partial_digest (Some r) None None None None None
       = Return (request_digest_formula hash method partial_digest
                   (DigestResponse.uri r) (DigestResponse.nonce r)
                   (DigestResponse.nc r) (DigestResponse.cnonce r)).
Proof.
  rewrite parse_digest_response_parts. intros Hr.
  destruct (parse_parts header _) as [parts|]; [| discriminate Hr].
  injection Hr as Hr. cbn [mbind option_bind] in Hr.
  destruct (response_of_parts_some parts r Hr) as (nc & _ & _ & _ & _ & Hav & _).
  apply supported_hash_available in Hav as [hash Hs].
  exists hash. split; [exact Hs |].
  rewrite calculate_request_digest_response by reflexivity. cbv zeta.
  assert (algorithm_or_md5 (Some (DigestResponse.algorithm r))
          = DigestResponse.algorithm r) as ->.
  { unfold algorithm_or_md5. cbn [truthy].
    now rewrite (supported_hash_nonempty _ _ Hs). }
  rewrite (get_hash_func_supported _ _ Hs). unfold_bind.
  now rewrite (get_hash_func_supported _ _ Hs).
Qed.

End parsed_fields.

Lemma parse_digest_response_fields_witness :
  part (@parse_parts spec_codec (sample_credentials "0000000a") {["algorithm" := "MD5"]})
    "username" = Some "Mufasa".
Proof.
  destruct (proj1 (@parse_digest_response_fields demo_hashlib spec_codec
                     (sample_credentials "0000000a")
                     (DigestResponse.mk "Mufasa" "testrealm@host.com"
                        "dcd98b7102dd2f0e8b11d0f600bfb0c093" "/dir/index.html"
                        "6629fae49393a05397450978507c4ef1" "MD5"
                        "5ccc069c403ebaf9f0171e9517f40e41" "auth" 10 "0a4f113b")))
    as (H & _); [vm_compute; reflexivity | exact H].
Defined.

Lemma parse_digest_challenge_fields_witness :
  part (@parse_parts spec_codec (drop 7 (sample_challenge "SHA-256"))
          {["algorithm" := "MD5"; "stale" := "false"]}) "realm"
  = Some "testrealm@host.com".
Proof.
  destruct (@parse_digest_challenge_fields demo_hashlib spec_codec
              (sample_challenge "SHA-256")
              (DigestChallenge.mk "testrealm@host.com"
                 "dcd98b7102dd2f0e8b11d0f600bfb0c093" false "SHA-256"
                 "5ccc069c403ebaf9f0171e9517f40e41" "auth"))
    as (_ & H & _); [vm_compute; reflexivity | exact H].
Defined.

Lemma parsed_response_request_digest_witness :
  exists hash,
    @supported_hash demo_hashlib "MD5" = Some hash
    /\ @calculate_request_digest demo_hashlib "GET" "939e7578ed9e3c518a452acd763cce1a"
         (Some (DigestResponse.mk "Mufasa" "testrealm@host.com"
                  "dcd98b7102dd2f0e8b11d0f600bfb0c093" "/dir/index.html"
                  "6629fae49393a05397450978507c4ef1" "MD5"
                  "5ccc069c403ebaf9f0171e9517f40e41" "auth" 10 "0a4f113b"))
         None None None None None
       = Return (request_digest_formula hash "GET" "939e7578ed9e3c518a452acd763cce1a"
                   "/dir/index.html" "dcd98b7102dd2f0e8b11d0f600bfb0c093" 10 "0a4f113b").
Proof.
  apply (@parsed_response_request_digest demo_hashlib spec_codec
           (sample_credentials "0000000a") "GET" "939e7578ed9e3c518a452acd763cce1a"
           (DigestResponse.mk "Mufasa" "testrealm@host.com"
              "dcd98b7102dd2f0e8b11d0f600bfb0c093" "/dir/index.html"
              "6629fae49393a05397450978507c4ef1" "MD5"
              "5ccc069c403ebaf9f0171e9517f40e41" "auth" 10 "0a4f113b")).
  vm_compute. reflexivity.
Defined.

(** ** Authorization requests *)

Section authorization_request.

Context {hashlib : Hashlib} {codec : Codec}.

Lemma algorithm_or_md5_supported (algorithm : string) (hash : string -> string) :
  supported_hash algorithm = Some hash -> algorithm_or_md5 (Some algorithm) = algorithm.
Proof.
  intros Hs. unfold algorithm_or_md5. cbn [truthy default].
  now rewrite (supported_hash_nonempty _ _ Hs).
Qed.

(** The call with realm, nonce and opaque given as arguments, and a client
    nonce: what is left of the body. *)
Lemma build_authorization_request_fields (username method uri realm nonce opaque
    client_nonce : string) (nonce_count : Z)
    (password request_digest algorithm : option string) (g : Rng) :
  nonempty realm = true -> nonempty nonce = true -> nonempty opaque = true ->
  nonempty client_nonce = true ->
  build_authorization_request username method uri nonce_count None (Some realm)
    (Some nonce) (Some opaque) password request_digest (Some client_nonce) algorithm g
  = (Py.bind
       (if truthy password && truthy request_digest then
          Raise (Exception "Both password and calculated request_digest were sent.")
        else if negb (truthy request_digest) then
          Py.bind (raise_if (negb (truthy password))
                     (Exception
                        "Either password or calculated request_digest must be provided."))
            (fun _ =>
               Py.bind (calculate_partial_digest username realm
                          (default EmptyString password) (algorithm_or_md5 algorithm))
                 (fun partial_digest =>
                    calculate_request_digest method partial_digest None (Some uri)
                      (Some nonce) (Some nonce_count) (Some client_nonce)
                      (Some (algorithm_or_md5 algorithm))))
        else Return (default EmptyString request_digest))
       (fun request_digest =>
          Return ("Digest " +:+ format_parts
            [("username", username); ("realm", realm); ("nonce", nonce); ("uri", uri);
             ("response", request_digest); ("algorithm", algorithm_or_md5 algorithm);
             ("opaque", opaque); ("qop", "auth"); ("nc", format_08x nonce_count);
             ("cnonce", client_nonce)])), g).
Proof.
  intros Hr Hn Ho Hc.
  unfold build_authorization_request. rewrite Hc.
  cbn [challenge_truthy truthy andb orb]. rewrite Hr, Hn, Ho.
  unfold mbind, result_bind. cbn [raise_if Py.bind andb]. reflexivity.
Qed.

Lemma request_digest_supported (method partial_digest uri nonce client_nonce
    algorithm : string) (nonce_count : Z) (hash : string -> string) :
  supported_hash algorithm = Some hash ->
  nonempty uri = true -> nonempty nonce = true -> nonempty client_nonce = true ->
  calculate_request_digest method partial_digest None (Some uri) (Some nonce)
    (Some nonce_count) (Some client_nonce) (Some algorithm)
  = Return (request_digest_formula hash method partial_digest uri nonce nonce_count
              client_nonce).
Proof.
  intros Hs Hu Hn Hc. rewrite calculate_request_digest_individual by assumption.
  rewrite (algorithm_or_md5_supported _ _ Hs), (get_hash_func_supported _ _ Hs).
  unfold mbind, result_bind. cbn [Py.bind].
  now rewrite (get_hash_func_supported _ _ Hs).
Qed.

Lemma build_authorization_request_returns (username method uri realm nonce opaque
    password client_nonce algorithm : string) (nonce_count : Z)
    (hash : string -> string) (g : Rng) :
  nonempty realm = true -> nonempty nonce = true -> nonempty opaque = true ->
  nonempty password = true -> nonempty uri = true -> nonempty client_nonce = true ->
  supported_hash algorithm = Some hash ->
  build_authorization_request username method uri nonce_count None (Some realm)
    (Some nonce) (Some opaque) (Some password) None (Some client_nonce) (Some algorithm) g
  = (Return ("Digest " +:+ format_parts
       [("username", username); ("realm", realm); ("nonce", nonce); ("uri", uri);
        ("response",
         request_digest_formula hash method
           (hash (encode_utf8 username +:+ ":" +:+ encode_utf8 realm +:+ ":"
                    +:+ encode_utf8 password))
           uri nonce nonce_count client_nonce);
        ("algorithm", algorithm); ("opaque", opaque); ("qop", "auth");
        ("nc", format_08x nonce_count); ("cnonce", client_nonce)]), g).
Proof.
  intros Hr Hn Ho Hp Hu Hc Hs.
  rewrite build_authorization_request_fields by assumption.
  cbn [truthy andb negb]. rewrite Hp. cbn [andb negb raise_if Py.bind default].
  rewrite (algorithm_or_md5_supported _ _ Hs).
  unfold calculate_partial_digest. rewrite (get_hash_func_supported _ _ Hs).
  cbn [Py.bind]. rewrite (request_digest_supported _ _ _ _ _ _ _ _ Hs) by assumption.
  reflexivity.
Qed.

(** Given realm, nonce and opaque, a password and a client nonce, all
    non-empty, a non-empty uri and a supported algorithm,
    [build_authorization_request] returns the Digest header of the ten
    parameters in the order of the source, whose response is the request
    digest computed from the partial digest of username, realm and password,
    and whose [nc] is the count in ["%08x"]; no random draw is made. *)
Theorem build_authorization_request_password (username method uri realm nonce opaque
    password client_nonce algorithm : string) (nonce_count : Z)
    (hash : string -> string) (g : Rng) :
  nonempty realm = true -> nonempty nonce = true -> nonempty opaque = true ->
  nonempty password = true -> nonempty uri = true -> nonempty client_nonce = true ->
  supported_hash algorithm = Some hash ->
  exists response,
    calculate_partial_digest username realm password algorithm
    = Return (hash (encode_utf8 username +:+ ":" +:+ encode_utf8 realm +:+ ":"
                      +:+ encode_utf8 password))
    /\ response =
       request_digest_formula hash method
         (hash (encode_utf8 username +:+ ":" +:+ encode_utf8 realm +:+ ":"
                  +:+ encode_utf8 password))
         uri nonce nonce_count client_nonce
    /\ build_authorization_request username method uri nonce_count None (Some realm)
         (Some nonce) (Some opaque) (Some password) None (Some client_nonce)
         (Some algorithm) g
       = (Return ("Digest " +:+ format_parts
            [("username", username); ("realm", realm); ("nonce", nonce); ("uri", uri);
             ("response", response); ("algorithm", algorithm); ("opaque", opaque);
             ("qop", "auth"); ("nc", format_08x nonce_count);
             ("cnonce", client_nonce)]), g).
Proof.
  intros Hr Hn Ho Hp Hu Hc Hs. eexists. split; [| split; [reflexivity |]].
  - unfold calculate_partial_digest. now rewrite (get_hash_func_supported _ _ Hs).
  - now apply build_authorization_request_returns.
Qed.

(** Given a precomputed request digest and no password, the header carries
    that digest as its response, whatever the uri and the algorithm name;
    without an algorithm the header names MD5. *)
Theorem build_authorization_request_precomputed (username method uri realm nonce opaque
    request_digest client_nonce : string) (algorithm : option string) (nonce_count : Z)
    (g : Rng) :
  nonempty realm = true -> nonempty nonce = true -> nonempty opaque = true ->
  nonempty request_digest = true -> nonempty client_nonce = true ->
  build_authorization_request username method uri nonce_count None (Some realm)
    (Some nonce) (Some opaque) None (Some request_digest) (Some client_nonce) algorithm g
  = (Return ("Digest " +:+ format_parts
       [("username", username); ("realm", realm); ("nonce", nonce); ("uri", uri);
        ("response", request_digest); ("algorithm", algorithm_or_md5 algorithm);
        ("opaque", opaque); ("qop", "auth"); ("nc", format_08x nonce_count);
        ("cnonce", client_nonce)]), g)
  /\ algorithm_or_md5 None = "MD5".
Proof.
  intros Hr Hn Ho Hd Hc. split; [| reflexivity].
  rewrite build_authorization_request_fields by assumption.
  cbn [truthy andb negb]. rewrite Hd. reflexivity.
Qed.

(** With a password and an empty uri the call raises the exception of
    [calculate_request_digest], to which the empty uri is a missing
    parameter. *)
Theorem build_authorization_request_empty_uri (username method realm nonce opaque
    password client_nonce algorithm : string) (nonce_count : Z)
    (hash : string -> string) (g : Rng) :
  nonempty realm = true -> nonempty nonce = true -> nonempty opaque = true ->
  nonempty password = true -> nonempty client_nonce = true ->
  supported_hash algorithm = Some hash ->
  fst (build_authorization_request username method EmptyString nonce_count None
         (Some realm) (Some nonce) (Some opaque) (Some password) None (Some client_nonce)
         (Some algorithm) g)
  = Raise (Exception "Neither digest_response nor all individual parameters were sent.").
Proof.
  intros Hr Hn Ho Hp Hc Hs.
  rewrite build_authorization_request_fields by assumption.
  cbn [truthy andb negb fst]. rewrite Hp. cbn [andb negb raise_if Py.bind default].
  rewrite (algorithm_or_md5_supported _ _ Hs).
  unfold calculate_partial_digest. rewrite (get_hash_func_supported _ _ Hs).
  reflexivity.
Qed.

(** The misuse errors: a challenge together with a non-empty realm, nonce,
    opaque or algorithm; no challenge and realm, nonce or opaque missing or
    empty; and, once realm, nonce and opaque are settled by the arguments or
    by a challenge record, a password together with a request digest, or
    neither of the two.  Each raises [Exception]. *)
Theorem build_authorization_request_misuse (username method uri : string)
    (nonce_count : Z) (digest_challenge : option challenge_arg)
    (realm nonce opaque password request_digest client_nonce algorithm : option string)
    (g : Rng) :
  let outcome :=
    fst (build_authorization_request username method uri nonce_count digest_challenge
           realm nonce opaque password request_digest client_nonce algorithm g) in
  let settled :=
    (challenge_truthy digest_challenge = false
     /\ truthy realm && truthy nonce && truthy opaque = true)
    \/ ((exists c, digest_challenge = Some (ChallengeObject c))
        /\ truthy realm || truthy nonce || truthy opaque || truthy algorithm = false) in
  (challenge_truthy digest_challenge = true ->
   truthy realm || truthy nonce || truthy opaque || truthy algorithm = true ->
   outcome = Raise (Exception
     "Both digest_challenge and one or more of realm, nonce, opaque and algorithmwere sent."))
  /\ (challenge_truthy digest_challenge = false ->
      truthy realm && truthy nonce && truthy opaque = false ->
      outcome = Raise (Exception
        "Either digest_challenge or realm, nonce, and opaque must be sent."))
  /\ (settled -> truthy password && truthy request_digest = true ->
      outcome = Raise (Exception "Both password and calculated request_digest were sent."))
  /\ (settled -> truthy password || truthy request_digest = false ->
      outcome = Raise (Exception
        "Either password or calculated request_digest must be provided.")).
Proof.
  intros outcome settled. subst outcome settled.
  unfold build_authorization_request.
  destruct (match client_nonce with
            | Some c => if nonempty c then (c, g) else choices hex_alphabet 32 g
            | None => choices hex_alphabet 32 g
            end) as [cn g'].
  cbn [fst]. unfold raise_if, mbind, result_bind.
  split; [| split; [| split]].
  - intros -> ->. reflexivity.
  - intros Hc Hmissing. rewrite Hc. cbn [andb Py.bind].
    destruct digest_challenge as [[header | c] |]; cbn [challenge_truthy] in Hc;
      [rewrite Hc | discriminate Hc |];
      destruct realm as [realm|], nonce as [nonce|], opaque as [opaque|];
      try reflexivity; cbn [truthy] in Hmissing; now rewrite Hmissing.
  - intros [[Hc Hfields] | [[c ->] Hnone]] Hboth.
    + apply andb_true_iff in Hfields as [Hfields Ho].
      apply andb_true_iff in Hfields as [Hr Hn].
      destruct realm as [realm|]; [| discriminate Hr].
      destruct nonce as [nonce|]; [| discriminate Hn].
      destruct opaque as [opaque|]; [| discriminate Ho].
      cbn [truthy] in Hr, Hn, Ho. rewrite Hc. cbn [andb Py.bind].
      destruct digest_challenge as [[header | c] |]; cbn [challenge_truthy] in Hc;
        [rewrite Hc | discriminate Hc |];
        rewrite Hr, Hn, Ho; cbn [andb Py.bind]; rewrite Hboth; reflexivity.
    + cbn [challenge_truthy andb]. rewrite Hnone. cbn [Py.bind]. rewrite Hboth.
      reflexivity.
  - intros [[Hc Hfields] | [[c ->] Hnone]] Hneither;
      apply orb_false_iff in Hneither as [Hp Hd].
    + apply andb_true_iff in Hfields as [Hfields Ho].
      apply andb_true_iff in Hfields as [Hr Hn].
      destruct realm as [realm|]; [| discriminate Hr].
      destruct nonce as [nonce|]; [| discriminate Hn].
      destruct opaque as [opaque|]; [| discriminate Ho].
      cbn [truthy] in Hr, Hn, Ho. rewrite Hc. cbn [andb Py.bind].
      destruct digest_challenge as [[header | c] |]; cbn [challenge_truthy] in Hc;
        [rewrite Hc | discriminate Hc |];
        rewrite Hr, Hn, Ho; cbn [andb Py.bind]; rewrite Hp, Hd; reflexivity.
    + cbn [challenge_truthy andb]. rewrite Hnone. cbn [Py.bind]. rewrite Hp, Hd.
      reflexivity.
Qed.

(** The generator: whatever the other arguments and the outcome, a non-empty
    client nonce leaves it untouched, and otherwise thirty-two draws are
    made. *)
Theorem build_authorization_request_draws (username method uri : string)
    (nonce_count : Z) (digest_challenge : option challenge_arg)
    (realm nonce opaque password request_digest client_nonce algorithm : option string)
    (g : Rng) :
  snd (build_authorization_request username method uri nonce_count digest_challenge
         realm nonce opaque password request_digest client_nonce algorithm g)
  = if truthy client_nonce then g else advance 32 g.
Proof.
  unfold build_authorization_request.
  pose proof (choices_advance hex_alphabet 32 g) as Hadv.
  destruct client_nonce as [c|]; cbn [truthy];
    [destruct (nonempty c); [reflexivity |] |];
    destruct (choices hex_alphabet 32 g) as [cn g']; cbn [snd] in *; exact Hadv.
Qed.

(** The three ways to pass the challenge agree: the header text gives what
    the record it parses to gives, and a record whose realm, nonce and opaque
    are non-empty gives what its four fields give as arguments. *)
Theorem build_authorization_request_call_forms (username method uri : string)
    (nonce_count : Z) (password request_digest client_nonce : option string) (g : Rng) :
  (forall header c,
     parse_digest_challenge header = Return (Some c) ->
     build_authorization_request username method uri nonce_count
       (Some (ChallengeHeader header)) None None None password request_digest
       client_nonce None g
     = build_authorization_request username method uri nonce_count
         (Some (ChallengeObject c)) None None None password request_digest
         client_nonce None g)
  /\ (forall c,
        nonempty (DigestChallenge.realm c) = true ->
        nonempty (DigestChallenge.nonce c) = true ->
        nonempty (DigestChallenge.opaque c) = true ->
        build_authorization_request username method uri nonce_count
          (Some (ChallengeObject c)) None None None password request_digest
          client_nonce None g
        = build_authorization_request username method uri nonce_count None
            (Some (DigestChallenge.realm c)) (Some (DigestChallenge.nonce c))
            (Some (DigestChallenge.opaque c)) password request_digest client_nonce
            (Some (DigestChallenge.algorithm c)) g).
Proof.
  split.
  - intros header c Hparse.
    assert (nonempty header = true) as Hne.
    { destruct header; [| reflexivity].
      rewrite parse_digest_challenge_parts in Hparse. discriminate Hparse. }
    unfold build_authorization_request. cbn [challenge_truthy].
    now rewrite Hne, Hparse.
  - intros c Hr Hn Ho. unfold build_authorization_request.
    cbn [challenge_truthy truthy andb orb]. now rewrite Hr, Hn, Ho.
Qed.

End authorization_request.

Lemma build_authorization_request_password_witness :
  exists response,
    @calculate_partial_digest demo_hashlib "Mufasa" "testrealm@host.com" "Circle Of Life"
      "MD5"
    = Return (demo_digest 5 (encode_utf8 "Mufasa" +:+ ":"
                               +:+ encode_utf8 "testrealm@host.com" +:+ ":"
                               +:+ encode_utf8 "Circle Of Life"))
    /\ response =
       request_digest_formula (demo_digest 5) "GET"
         (demo_digest 5 (encode_utf8 "Mufasa" +:+ ":"
                           +:+ encode_utf8 "testrealm@host.com" +:+ ":"
                           +:+ encode_utf8 "Circle Of Life"))
         "/dir/index.html" "dcd98b7102dd2f0e8b11d0f600bfb0c093" 1 "0a4f113b"
    /\ @build_authorization_request demo_hashlib spec_codec "Mufasa" "GET"
         "/dir/index.html" 1 None (Some "testrealm@host.com")
         (Some "dcd98b7102dd2f0e8b11d0f600bfb0c093")
         (Some "5ccc069c403ebaf9f0171e9517f40e41") (Some "Circle Of Life") None
         (Some "0a4f113b") (Some "MD5") (fun i => i)
       = (Return ("Digest " +:+ utils.format_parts
            [("username", "Mufasa"); ("realm", "testrealm@host.com");
             ("nonce", "dcd98b7102dd2f0e8b11d0f600bfb0c093"); ("uri", "/dir/index.html");
             ("response", response); ("algorithm", "MD5");
             ("opaque", "5ccc069c403ebaf9f0171e9517f40e41"); ("qop", "auth");
             ("nc", format_08x 1); ("cnonce", "0a4f113b")]), fun i => i).
Proof.
  apply (@build_authorization_request_password demo_hashlib spec_codec "Mufasa" "GET"
           "/dir/index.html" "testrealm@host.com" "dcd98b7102dd2f0e8b11d0f600bfb0c093"
           "5ccc069c403ebaf9f0171e9517f40e41" "Circle Of Life" "0a4f113b" "MD5" 1
           (demo_digest 5) (fun i => i)); reflexivity.
Defined.

Lemma build_authorization_request_precomputed_witness :
  @build_authorization_request demo_hashlib spec_codec "Mufasa" "GET" EmptyString 1 None
    (Some "testrealm@host.com") (Some "dcd98b7102dd2f0e8b11d0f600bfb0c093")
    (Some "5ccc069c403ebaf9f0171e9517f40e41") None
    (Some "6629fae49393a05397450978507c4ef1") (Some "0a4f113b") (Some "SHA-1")
    (fun i => i)
  = (Return ("Digest " +:+ utils.format_parts
       [("username", "Mufasa"); ("realm", "testrealm@host.com");
        ("nonce", "dcd98b7102dd2f0e8b11d0f600bfb0c093"); ("uri", EmptyString);
        ("response", "6629fae49393a05397450978507c4ef1");
        ("algorithm", algorithm_or_md5 (Some "SHA-1"));
        ("opaque", "5ccc069c403ebaf9f0171e9517f40e41"); ("qop", "auth");
        ("nc", format_08x 1); ("cnonce", "0a4f113b")]), fun i => i)
  /\ algorithm_or_md5 None = "MD5".
Proof.
  apply (@build_authorization_request_precomputed demo_hashlib spec_codec "Mufasa" "GET"
           EmptyString "testrealm@host.com" "dcd98b7102dd2f0e8b11d0f600bfb0c093"
           "5ccc069c403ebaf9f0171e9517f40e41" "6629fae49393a05397450978507c4ef1"
           "0a4f113b" (Some "SHA-1") 1 (fun i => i)); reflexivity.
Defined.

Lemma build_authorization_request_empty_uri_witness :
  fst (@build_authorization_request demo_hashlib spec_codec "Mufasa" "GET" EmptyString 1
         None (Some "testrealm@host.com") (Some "dcd98b7102dd2f0e8b11d0f600bfb0c093")
         (Some "5ccc069c403ebaf9f0171e9517f40e41") (Some "Circle Of Life") None
         (Some "0a4f113b") (Some "SHA-256") (fun i => i))
  = Raise (Exception "Neither digest_response nor all individual parameters were sent.").
Proof.
  apply (@build_authorization_request_empty_uri demo_hashlib spec_codec "Mufasa" "GET"
           "testrealm@host.com" "dcd98b7102dd2f0e8b11d0f600bfb0c093"
           "5ccc069c403ebaf9f0171e9517f40e41" "Circle Of Life" "0a4f113b" "SHA-256" 1
           (demo_digest 256) (fun i => i)); reflexivity.
Defined.

Lemma build_authorization_request_misuse_witness :
  fst (@build_authorization_request demo_hashlib spec_codec "Mufasa" "GET"
         "/dir/index.html" 1 (Some (ChallengeHeader (sample_challenge "MD5")))
         (Some "testrealm@host.com") None None (Some "Circle Of Life") None None None
         (fun i => i))
  = Raise (Exception
      "Both digest_challenge and one or more of realm, nonce, opaque and algorithmwere sent.")
  /\ fst (@build_authorization_request demo_hashlib spec_codec "Mufasa" "GET"
            "/dir/index.html" 1 None (Some "testrealm@host.com") None
            (Some "5ccc069c403ebaf9f0171e9517f40e41") (Some "Circle Of Life") None None
            None (fun i => i))
     = Raise (Exception "Either digest_challenge or realm, nonce, and opaque must be sent.")
  /\ fst (@build_authorization_request demo_hashlib spec_codec "Mufasa" "GET"
            "/dir/index.html" 1 None (Some "testrealm@host.com")
            (Some "dcd98b7102dd2f0e8b11d0f600bfb0c093")
            (Some "5ccc069c403ebaf9f0171e9517f40e41") (Some "Circle Of Life")
            (Some "6629fae49393a05397450978507c4ef1") None None (fun i => i))
     = Raise (Exception "Both password and calculated request_digest were sent.")
  /\ fst (@build_authorization_request demo_hashlib spec_codec "Mufasa" "GET"
            "/dir/index.html" 1 None (Some "testrealm@host.com")
            (Some "dcd98b7102dd2f0e8b11d0f600bfb0c093")
            (Some "5ccc069c403ebaf9f0171e9517f40e41") (Some EmptyString) None None None
            (fun i => i))
     = Raise (Exception "Either password or calculated request_digest must be provided.").
Proof.
  split; [| split; [| split]].
  - apply (@build_authorization_request_misuse demo_hashlib spec_codec "Mufasa" "GET"
             "/dir/index.html" 1 (Some (ChallengeHeader (sample_challenge "MD5")))
             (Some "testrealm@host.com") None None (Some "Circle Of Life") None None None
             (fun i => i)); reflexivity.
  - apply (@build_authorization_request_misuse demo_hashlib spec_codec "Mufasa" "GET"
             "/dir/index.html" 1 None (Some "testrealm@host.com") None
             (Some "5ccc069c403ebaf9f0171e9517f40e41") (Some "Circle Of Life") None None
             None (fun i => i)); reflexivity.
  - apply (@build_authorization_request_misuse demo_hashlib spec_codec "Mufasa" "GET"
             "/dir/index.html" 1 None (Some "testrealm@host.com")
             (Some "dcd98b7102dd2f0e8b11d0f600bfb0c093")
             (Some "5ccc069c403ebaf9f0171e9517f40e41") (Some "Circle Of Life")
             (Some "6629fae49393a05397450978507c4ef1") None None (fun i => i));
      [left; split; reflexivity | reflexivity].
  - apply (@build_authorization_request_misuse demo_hashlib spec_codec "Mufasa" "GET"
             "/dir/index.html" 1 None (Some "testrealm@host.com")
             (Some "dcd98b7102dd2f0e8b11d0f600bfb0c093")
             (Some "5ccc069c403ebaf9f0171e9517f40e41") (Some EmptyString) None None None
             (fun i => i)); [left; split; reflexivity | reflexivity].
Defined.

Lemma build_authorization_request_call_forms_witness :
  @build_authorization_request demo_hashlib spec_codec "Mufasa" "GET" "/dir/index.html" 1
    (Some (ChallengeHeader (sample_challenge "SHA-256"))) None None None
    (Some "Circle Of Life") None (Some "0a4f113b") None (fun i => i)
  = @build_authorization_request demo_hashlib spec_codec "Mufasa" "GET" "/dir/index.html"
      1 None (Some "testrealm@host.com") (Some "dcd98b7102dd2f0e8b11d0f600bfb0c093")
      (Some "5ccc069c403ebaf9f0171e9517f40e41") (Some "Circle Of Life") None
      (Some "0a4f113b") (Some "SHA-256") (fun i => i).
Proof.
  pose proof (@build_authorization_request_call_forms demo_hashlib spec_codec "Mufasa"
                "GET" "/dir/index.html" 1 (Some "Circle Of Life") None (Some "0a4f113b")
                (fun i => i)) as [Hheader Hrecord].
  rewrite (Hheader (sample_challenge "SHA-256")
             (DigestChallenge.mk "testrealm@host.com" "dcd98b7102dd2f0e8b11d0f600bfb0c093"
                false "SHA-256" "5ccc069c403ebaf9f0171e9517f40e41" "auth"))
    by (vm_compute; reflexivity).
  apply Hrecord; reflexivity.
Defined.

(** ** A challenge and its answer *)

Section challenge_and_answer.

Context {hashlib : Hashlib} {codec : Codec}.

(** The challenge that [build_digest_challenge] writes is the Digest header
    of six parameters in the order of the source, with [qop] equal to [auth]
    and [stale] written [true] or [false]; it passes [is_digest_challenge];
    its nonce, when the timestamp holds no colon, validates under the secret
    it was made with; four random draws are made. *)
Theorem build_digest_challenge_nonce (timestamp secret realm opaque : string)
    (stale : bool) (algorithm : string) (g g' : Rng) :
  lacks ":" timestamp = true ->
  exists nonce,
    build_digest_challenge timestamp secret realm opaque stale algorithm g
    = ("Digest " +:+ format_parts
         [("realm", realm); ("qop", "auth"); ("nonce", nonce); ("opaque", opaque);
          ("algorithm", algorithm); ("stale", if stale then "true" else "false")],
       advance 4 g)
    /\ validate_nonce nonce secret g' = (true, g')
    /\ is_digest_challenge
         (fst (build_digest_challenge timestamp secret realm opaque stale algorithm g))
       = true.
Proof.
  intros Hts. unfold build_digest_challenge, calculate_nonce.
  destruct (random_salt g) as (c & s & Hdraw & _ & Hsalt).
  pose proof (choices_advance hex_alphabet 4 g) as Hadv.
  destruct (choices hex_alphabet 4 g) as [salt g1]. cbn [fst snd] in *. subst salt g1.
  eexists. split; [reflexivity |]. split; [| reflexivity].
  unfold validate_nonce. rewrite split_nonce by assumption.
  rewrite calculate_nonce_salted by reflexivity.
  now rewrite String.eqb_refl.
Qed.

(** A client that answers with [build_authorization_request] is understood
    by the server.  For realm, nonce, opaque, password, uri and client nonce
    all non-empty, a supported algorithm and a count that is not negative,
    and a codec that reads back each of the ten parameters of the header:
    [parse_digest_credentials] returns the credential of those ten values,
    with the count itself as [nc], and [calculate_request_digest], given that
    credential and the partial digest of username, realm and password,
    returns the credential's response. *)
Theorem build_authorization_request_verified (username method uri realm nonce opaque
    password client_nonce algorithm : string) (nonce_count : Z)
    (hash : string -> string) (g : Rng) :
  nonempty realm = true -> nonempty nonce = true -> nonempty opaque = true ->
  nonempty password = true -> nonempty uri = true -> nonempty client_nonce = true ->
  supported_hash algorithm = Some hash ->
  0 <= nonce_count ->
  (forall key value,
     In (key, value)
       [("username", username); ("realm", realm); ("nonce", nonce); ("uri", uri);
        ("response",
         request_digest_formula hash method
           (hash (encode_utf8 username +:+ ":" +:+ encode_utf8 realm +:+ ":"
                    +:+ encode_utf8 password))
           uri nonce nonce_count client_nonce);
        ("algorithm", algorithm); ("opaque", opaque); ("qop", "auth");
        ("nc", format_08x nonce_count); ("cnonce", client_nonce)] ->
     part (parse_parts
             (format_parts
                [("username", username); ("realm", realm); ("nonce", nonce); ("uri", uri);
                 ("response",
                  request_digest_formula hash method
                    (hash (encode_utf8 username +:+ ":" +:+ encode_utf8 realm +:+ ":"
                             +:+ encode_utf8 password))
                    uri nonce nonce_count client_nonce);
                 ("algorithm", algorithm); ("opaque", opaque); ("qop", "auth");
                 ("nc", format_08x nonce_count); ("cnonce", client_nonce)])
             {["algorithm" := "MD5"]}) key
     = Some value) ->
  exists header partial_digest credential,
    build_authorization_request username method uri nonce_count None (Some realm)
      (Some nonce) (Some opaque) (Some password) None (Some client_nonce)
      (Some algorithm) g
    = (Return header, g)
    /\ calculate_partial_digest username realm password algorithm = Return partial_digest
    /\ parse_digest_credentials header = Return (Some credential)
    /\ credential =
       DigestResponse.mk username realm nonce uri (DigestResponse.response credential)
         algorithm opaque "auth" nonce_count client_nonce
    /\ calculate_request_digest method partial_digest (Some credential) None None None
         None None
       = Return (DigestResponse.response credential).
Proof.
  intros Hr Hn Ho Hp Hu Hc Hs Hnc Hread.
  rewrite (build_authorization_request_returns _ _ _ _ _ _ _ _ _ _ _ _
             Hr Hn Ho Hp Hu Hc Hs).
  set (partial_digest := hash (encode_utf8 username +:+ ":" +:+ encode_utf8 realm
                                 +:+ ":" +:+ encode_utf8 password)) in *.
  set (response := request_digest_formula hash method partial_digest uri nonce
                     nonce_count client_nonce) in *.
  set (parameters := [("username", username); ("realm", realm); ("nonce", nonce);
                      ("uri", uri); ("response", response); ("algorithm", algorithm);
                      ("opaque", opaque); ("qop", "auth");
                      ("nc", format_08x nonce_count); ("cnonce", client_nonce)]) in *.
  destruct (format_08x_nonneg nonce_count Hnc) as (Hhex & Hval & _).
  assert (str_in algorithm _AVAILABLE_HASH_FUNCS = true) as Havail
    by (apply supported_hash_available; now exists hash).
  assert (parse_parts (format_parts parameters) {["algorithm" := "MD5"]}
            ≫= response_of_parts
          = Some (DigestResponse.mk username realm nonce uri response algorithm opaque
                    "auth" nonce_count client_nonce)) as Hparsed.
  { assert (forall key value, In (key, value) parameters ->
              exists parts,
                parse_parts (format_parts parameters) {["algorithm" := "MD5"]}
                = Some parts /\ parts !! key = Some value) as Hparts.
    { intros key value Hin. specialize (Hread key value Hin).
      unfold part, mbind, option_bind in Hread.
      destruct (parse_parts (format_parts parameters) {["algorithm" := "MD5"]})
        as [parts|]; [| discriminate Hread].
      now exists parts. }
    destruct (Hparts "username" username) as (parts & Hsome & _);
      [now left |].
    assert (forall key value, In (key, value) parameters -> parts !! key = Some value)
      as Hlookup.
    { intros key value Hin. destruct (Hparts key value Hin) as (parts' & Hsome' & Hkey).
      rewrite Hsome in Hsome'. now injection Hsome' as <-. }
    rewrite Hsome. cbn [mbind option_bind].
    unfold response_of_parts, mbind, option_bind.
    rewrite (Hlookup "username" username) by (unfold parameters; cbn [In]; auto 12).
    rewrite (Hlookup "realm" realm) by (unfold parameters; cbn [In]; auto 12).
    rewrite (Hlookup "nonce" nonce) by (unfold parameters; cbn [In]; auto 12).
    rewrite (Hlookup "uri" uri) by (unfold parameters; cbn [In]; auto 12).
    rewrite (Hlookup "response" response) by (unfold parameters; cbn [In]; auto 12).
    rewrite (Hlookup "algorithm" algorithm) by (unfold parameters; cbn [In]; auto 12).
    rewrite (Hlookup "opaque" opaque) by (unfold parameters; cbn [In]; auto 12).
    rewrite (Hlookup "qop" "auth") by (unfold parameters; cbn [In]; auto 12).
    rewrite (Hlookup "nc" (format_08x nonce_count))
      by (unfold parameters; cbn [In]; auto 12).
    rewrite (Hlookup "cnonce" client_nonce) by (unfold parameters; cbn [In]; auto 12).
    rewrite Hhex, Havail, Hval. reflexivity. }
  exists ("Digest " +:+ format_parts parameters), partial_digest,
    (DigestResponse.mk username realm nonce uri response algorithm opaque "auth"
       nonce_count client_nonce).
  split; [reflexivity |]. split; [| split; [| split; [reflexivity |]]].
  - unfold calculate_partial_digest. now rewrite (get_hash_func_supported _ _ Hs).
  - rewrite parse_digest_credentials_parts.
    change (is_digest_credential ("Digest " +:+ ?x)) with true.
    change (drop 7 ("Digest " +:+ ?x)) with x. cbn iota. now rewrite Hparsed.
  - rewrite calculate_request_digest_response by reflexivity.
    cbn [DigestResponse.algorithm DigestResponse.uri DigestResponse.nonce
         DigestResponse.nc DigestResponse.cnonce DigestResponse.response].
    cbn zeta. rewrite (algorithm_or_md5_supported _ _ Hs).
    rewrite (get_hash_func_supported _ _ Hs).
    unfold mbind, result_bind. cbn [Py.bind].
    now rewrite (get_hash_func_supported _ _ Hs).
Qed.

End challenge_and_answer.

Lemma build_digest_challenge_nonce_witness :
  exists nonce,
    @build_digest_challenge demo_hashlib spec_codec "1263312775.17" "secret"
      "testrealm@host.com" "5ccc069c403ebaf9f0171e9517f40e41" true "SHA-256" (fun i => i)
    = ("Digest " +:+ utils.format_parts
         [("realm", "testrealm@host.com"); ("qop", "auth"); ("nonce", nonce);
          ("opaque", "5ccc069c403ebaf9f0171e9517f40e41"); ("algorithm", "SHA-256");
          ("stale", "true")],
       advance 4 (fun i => i))
    /\ @validate_nonce demo_hashlib nonce "secret" (fun i => S i) = (true, fun i => S i)
    /\ is_digest_challenge
         (fst (@build_digest_challenge demo_hashlib spec_codec "1263312775.17" "secret"
                 "testrealm@host.com" "5ccc069c403ebaf9f0171e9517f40e41" true "SHA-256"
                 (fun i => i)))
       = true.
Proof.
  apply (@build_digest_challenge_nonce demo_hashlib spec_codec "1263312775.17" "secret"
           "testrealm@host.com" "5ccc069c403ebaf9f0171e9517f40e41" true "SHA-256"
           (fun i => i) (fun i => S i)).
  reflexivity.
Defined.

Lemma build_authorization_request_verified_witness :
  exists header partial_digest credential,
    @build_authorization_request demo_hashlib spec_codec "Mufasa" "GET" "/dir/index.html"
      10 None (Some "testrealm@host.com") (Some "dcd98b7102dd2f0e8b11d0f600bfb0c093")
      (Some "5ccc069c403ebaf9f0171e9517f40e41") (Some "Circle Of Life") None
      (Some "0a4f113b") (Some "SHA-512") (fun i => i)
    = (Return header, fun i => i)
    /\ @calculate_partial_digest demo_hashlib "Mufasa" "testrealm@host.com"
         "Circle Of Life" "SHA-512"
       = Return partial_digest
    /\ @parse_digest_credentials demo_hashlib spec_codec header = Return (Some credential)
    /\ credential =
       DigestResponse.mk "Mufasa" "testrealm@host.com"
         "dcd98b7102dd2f0e8b11d0f600bfb0c093" "/dir/index.html"
         (DigestResponse.response credential) "SHA-512"
         "5ccc069c403ebaf9f0171e9517f40e41" "auth" 10 "0a4f113b"
    /\ @calculate_request_digest demo_hashlib "GET" partial_digest (Some credential) None
         None None None None
       = Return (DigestResponse.response credential).
Proof.
  apply (@build_authorization_request_verified demo_hashlib spec_codec "Mufasa" "GET"
           "/dir/index.html" "testrealm@host.com" "dcd98b7102dd2f0e8b11d0f600bfb0c093"
           "5ccc069c403ebaf9f0171e9517f40e41" "Circle Of Life" "0a4f113b" "SHA-512" 10
           (demo_digest 512) (fun i => i));
    [reflexivity | reflexivity | reflexivity | reflexivity | reflexivity | reflexivity
    | reflexivity | lia |].
  intros key value Hin. cbn [In] in Hin.
  repeat (destruct Hin as [Hin | Hin];
          [apply pair_equal_spec in Hin as [<- <-]; vm_compute; reflexivity |]).
  destruct Hin.
Defined.

(** ** Algorithm names *)

Section algorithm_names.

Context {hashlib : Hashlib}.

(** An algorithm name other than [SHA-256], [SHA-512] and [SHA-512-256],
    such as a name in small letters or a misspelt one, is no error to
    [calculate_partial_digest]: the digest is the MD5 one, as for [MD5]
    itself. *)
Theorem calculate_partial_digest_other_name (username realm password algorithm : string) :
  str_in algorithm ["SHA-256"; "SHA-512"; "SHA-512-256"] = false ->
  calculate_partial_digest username realm password algorithm
  = Return (md5 (encode_utf8 username +:+ ":" +:+ encode_utf8 realm +:+ ":"
                   +:+ encode_utf8 password))
  /\ calculate_partial_digest username realm password algorithm
     = calculate_partial_digest username realm password "MD5".
Proof.
  unfold str_in. cbn [existsb]. intros Hname.
  apply orb_false_iff in Hname as [H256 Hname].
  apply orb_false_iff in Hname as [H512 Hname].
  apply orb_false_iff in Hname as [H512_256 _].
  unfold calculate_partial_digest, get_hash_func.
  rewrite H256, H512, H512_256. split; reflexivity.
Qed.

End algorithm_names.

Lemma calculate_partial_digest_other_name_witness :
  @calculate_partial_digest demo_hashlib "Mufasa" "testrealm@host.com" "Circle Of Life"
    "sha-256"
  = Return (demo_digest 5 (encode_utf8 "Mufasa" +:+ ":"
                             +:+ encode_utf8 "testrealm@host.com" +:+ ":"
                             +:+ encode_utf8 "Circle Of Life"))
  /\ @calculate_partial_digest demo_hashlib "Mufasa" "testrealm@host.com"
       "Circle Of Life" "sha-256"
     = @calculate_partial_digest demo_hashlib "Mufasa" "testrealm@host.com"
         "Circle Of Life" "MD5".
Proof.
  apply (@calculate_partial_digest_other_name demo_hashlib "Mufasa" "testrealm@host.com"
           "Circle Of Life" "sha-256").
  reflexivity.
Defined.
